(** * Tracking aggregation of the vision analytics pipeline

    A shallow embedding of [video_processor.py] (the batch-video and the
    single-image sessions) and of the average-confidence rule of the two
    report builders ([report_generator.py], [generate_ai_summary.py]),
    with the properties of the aggregation proved over it.

    Python values are modelled as follows.
    - [int] is [Z]; [float] is the primitive binary64 [float], so that
      [+=] on a confidence sum is [PrimFloat.add] and no associativity
      is assumed anywhere.
    - a [defaultdict] keyed by class name is a [gmap string V] read
      through [ddget] with the factory's value for an absent key; a
      [set] of track ids is a [gset Z].
    - an exception is a [Raise] in the [result] monad.
    The decoder, the encoder sink, the progress bar and the detection
    engine are outside the embedding: a session receives what the
    decoder and the engine hand to the aggregation code. *)

From Stdlib Require Import ZArith PrimFloat FloatOps SpecFloat.
From stdpp Require Import gmap strings list fin_maps.

Local Open Scope Z_scope.
#[local] Set Warnings "-clear-no-such-hyp,-inexact-float".

(** ** Python primitives *)

Module Py.

Inductive exn : Type :=
| ValueError
| OverflowError
| ZeroDivisionError
| KeyError.

Inductive result (A : Type) : Type :=
| Ret (a : A)
| Raise (e : exn).
Arguments Ret {A} a.
Arguments Raise {A} e.

Definition bind {A B : Type} (m : result A) (k : A → result B) : result B :=
  match m with
  | Ret a => k a
  | Raise e => Raise e
  end.

(** A number as a function returns it: [0] is an [int], a quotient of
    [/] is a [float]. *)
Inductive number : Type :=
| PyInt (z : Z)
| PyFloat (f : float).

(** [int(x)] for a float [x]: truncation toward zero; NaN raises
    [ValueError] and an infinity raises [OverflowError]. *)
Definition trunc_SF (x : spec_float) : Z :=
  match x with
  | S754_finite s m e =>
      let mag := if 0 <=? e then Z.shiftl (Zpos m) e
                 else Z.shiftr (Zpos m) (- e) in
      if s then - mag else mag
  | _ => 0
  end.

Definition int_of_float (x : float) : result Z :=
  if is_nan x then Raise ValueError
  else if is_infinity x then Raise OverflowError
  else Ret (trunc_SF (Prim2SF x)).

(** [x or d] on ints: [d] when [x] is falsy, that is [0]. *)
Definition int_or (x d : Z) : Z := if x =? 0 then d else x.

(** The exact integer as an unrounded binary number. *)
Definition SF_of_int (z : Z) : spec_float :=
  match z with
  | Z0 => S754_zero false
  | Zpos p => S754_finite false p 0
  | Zneg p => S754_finite true p 0
  end.

(** [float(n)]: the nearest binary64 value, ties to even. CPython
    raises [OverflowError] from 2^1024 on; no counter of this program
    comes near, and the embedding returns the IEEE result there. *)
Definition float_of_int (n : Z) : float :=
  SF2Prim (binary_normalize prec emax n 0 false).

(** [a / b] on two ints: the exact quotient rounded once to binary64,
    [ZeroDivisionError] on a zero divisor. (Beyond the binary64 range
    CPython raises [OverflowError]; see [float_of_int].) *)
Definition int_truediv (a b : Z) : result float :=
  if b =? 0 then Raise ZeroDivisionError
  else Ret (SF2Prim (SFdiv prec emax (SF_of_int a) (SF_of_int b))).

(** [x / n] for a float [x] and an int [n]: [n] is converted, and a
    zero divisor raises; a non-zero int never converts to [0.0]. *)
Definition float_div_int (x : float) (n : Z) : result float :=
  if n =? 0 then Raise ZeroDivisionError
  else Ret (x / float_of_int n)%float.

(** [d[k]] on a [defaultdict] whose factory yields [dflt]. *)
Definition ddget {V : Type} (dflt : V) (d : gmap string V) (k : string) : V :=
  default dflt (d !! k).

End Py.

Import Py.

#[global] Instance result_bind : MBind result := fun A B k m => Py.bind m k.
#[global] Instance result_ret : MRet result := fun A a => Ret a.

(** ** Data model *)

(** One element of [results[0].boxes]: [cls_name] is
    [model.names[int(box.cls[0])]], [id] is [box.id] ([None], or the
    identity [int(box.id[0])] reads), [conf] is [float(box.conf[0])]. *)
Record Box : Type := mkBox {
  cls_name : string;
  id : option Z;
  conf : float
}.

(** [results[0].boxes] for one frame: [is_track] tells whether
    [boxes.id] is not [None]; [rows] is what iterating the boxes
    yields. *)
Record Boxes : Type := mkBoxes {
  is_track : bool;
  rows : list Box
}.

(** The [analytics] dictionary. [analyze_image] builds it without the
    ["total_frames"] key, hence the option. *)
Record Analytics : Type := mkAnalytics {
  total_frames : option Z;
  unique_ids : gmap string (gset Z);
  class_count : gmap string Z;
  confidence_sum : gmap string float;
  confidence_count : gmap string Z
}.

(** What [cv2.VideoCapture(input_path)] answers to the calls of
    [analyze_video]. *)
Record VideoCapture : Type := mkCapture {
  isOpened : bool;
  CAP_PROP_FRAME_WIDTH : float;
  CAP_PROP_FRAME_HEIGHT : float;
  CAP_PROP_FPS : float;
  CAP_PROP_FRAME_COUNT : float
}.

(** ** [analyze_video] *)

(** The dictionary of lines 34-40. *)
Definition video_analytics : Analytics :=
  mkAnalytics (Some 0) ∅ ∅ ∅ ∅.

(** Lines 52-60, the body of [for box in results[0].boxes]. *)
Definition track_box (a : Analytics) (box : Box) : Analytics :=
  match id box with
  | None => a
  | Some track_id =>
      let c := cls_name box in
      mkAnalytics
        (total_frames a)
        (<[c := {[track_id]} ∪ ddget ∅ (unique_ids a) c]> (unique_ids a))
        (class_count a)
        (<[c := (ddget 0 (confidence_sum a) c + conf box)%float]>
           (confidence_sum a))
        (<[c := ddget 0 (confidence_count a) c + 1]> (confidence_count a))
  end.

(** Lines 50-60: the boxes of one frame, behind the guard on
    [results[0].boxes.id]. *)
Definition track_frame (a : Analytics) (boxes : Boxes) : Analytics :=
  if is_track boxes then foldl track_box a (rows boxes) else a.

(** Line 66, [analytics["total_frames"] += 1]. *)
Definition count_frame (a : Analytics) : result Analytics :=
  match total_frames a with
  | None => Raise KeyError
  | Some n =>
      Ret (mkAnalytics (Some (n + 1)) (unique_ids a) (class_count a)
             (confidence_sum a) (confidence_count a))
  end.

(** Lines 43-69: one iteration per frame the decoder delivers;
    [tracked] lists [results[0].boxes] of each of them in order. *)
Fixpoint video_loop (tracked : list Boxes) (a : Analytics) : result Analytics :=
  match tracked with
  | [] => Ret a
  | boxes :: rest =>
      a' ← count_frame (track_frame a boxes);
      video_loop rest a'
  end.

(** Lines 74-75, [class_count[cls_name] = len(ids)] for every item of
    [unique_ids]. *)
Definition derive_class_count
    (uids : gmap string (gset Z)) (cc : gmap string Z) : gmap string Z :=
  map_fold (fun cls ids acc => <[cls := Z.of_nat (size ids)]> acc) cc uids.

(** Lines 74-78: the finalize step, for the frame rate [fps] resolved
    at opening. *)
Definition finalize (a : Analytics) (fps : Z) : result (Analytics * number) :=
  let a' := mkAnalytics (total_frames a) (unique_ids a)
              (derive_class_count (unique_ids a) (class_count a))
              (confidence_sum a) (confidence_count a) in
  match total_frames a' with
  | None => Raise KeyError
  | Some n =>
      duration_sec ← int_truediv n fps;
      Ret (a', PyFloat duration_sec)
  end.

(** Lines 17-78. The calls into the operating system, OpenCV and the
    engine ([os.path.abspath], [cv2.VideoWriter], [model.track],
    [results[0].plot], [out.write]) are taken to return; an exception
    of theirs leaves the function at once and is not part of the
    embedding. *)
Definition analyze_video (cap : VideoCapture) (tracked : list Boxes)
    : result (option Analytics * number) :=
  if negb (isOpened cap) then Ret (None, PyInt 0)
  else
    width ← int_of_float (CAP_PROP_FRAME_WIDTH cap);
    height ← int_of_float (CAP_PROP_FRAME_HEIGHT cap);
    fps0 ← int_of_float (CAP_PROP_FPS cap);
    let fps := int_or fps0 30 in
    frame_total ← int_of_float (CAP_PROP_FRAME_COUNT cap);
    a ← video_loop tracked video_analytics;
    r ← finalize a fps;
    Ret (Some (fst r), snd r).

(** ** [analyze_image] *)

(** The dictionary of lines 91-96. *)
Definition image_analytics : Analytics :=
  mkAnalytics None ∅ ∅ ∅ ∅.

(** Lines 99-104, the body of [for box in results[0].boxes]. *)
Definition count_box (a : Analytics) (box : Box) : Analytics :=
  let c := cls_name box in
  mkAnalytics
    (total_frames a)
    (unique_ids a)
    (<[c := ddget 0 (class_count a) c + 1]> (class_count a))
    (<[c := (ddget 0 (confidence_sum a) c + conf box)%float]>
       (confidence_sum a))
    (<[c := ddget 0 (confidence_count a) c + 1]> (confidence_count a)).

(** Lines 84-109. [frame] is [None] when [cv2.imread] returns [None],
    and otherwise carries [results[0].boxes] of the prediction on the
    decoded image. *)
Definition analyze_image (frame : option Boxes) : option Analytics * number :=
  match frame with
  | None => (None, PyInt 0)
  | Some boxes => (Some (foldl count_box image_analytics (rows boxes)), PyInt 0)
  end.

(** ** Average confidence in the report builders *)

(** [report_generator.py], [create_statistics_section], lines 227-229:
    the average starts at [0.0] and is overwritten under the guard. *)
Definition statistics_avg_conf (analytics : Analytics) (cls : string)
    : result float :=
  let avg_conf := 0%float in
  if 0 <? ddget 0 (confidence_count analytics) cls then
    avg_conf' ← float_div_int (ddget 0%float (confidence_sum analytics) cls)
                  (ddget 0 (confidence_count analytics) cls);
    Ret avg_conf'
  else Ret avg_conf.

(** [generate_ai_summary.py], [generate_pdf], lines 72-75: the two
    branches of the guard. *)
Definition summary_avg_conf (analytics : Analytics) (cls : string)
    : result float :=
  if 0 <? ddget 0 (confidence_count analytics) cls then
    float_div_int (ddget 0%float (confidence_sum analytics) cls)
      (ddget 0 (confidence_count analytics) cls)
  else Ret 0%float.

(** The rows both builders append for [analytics["class_count"].items()],
    before the cells are formatted to text: class, count, average. The
    rows come in the order [map_to_list] lists the keys; the insertion
    order of the Python dictionary is not kept by the map, and nothing
    below depends on it. *)
Definition table_rows (avg : Analytics → string → result float)
    (analytics : Analytics) : result (list (string * Z * float)) :=
  mapM (fun item : string * Z =>
          avg_conf ← avg analytics item.1;
          Ret (item.1, item.2, avg_conf))
       (map_to_list (class_count analytics)).

(** The table of [create_statistics_section] in [report_generator.py]. *)
Definition create_statistics_section
    : Analytics → result (list (string * Z * float)) :=
  table_rows statistics_avg_conf.

(** The table of [generate_pdf] in [generate_ai_summary.py]. *)
Definition generate_pdf : Analytics → result (list (string * Z * float)) :=
  table_rows summary_avg_conf.

(** ** Vocabulary of the properties *)

(** The track ids reported together with class [c] among [boxes], in
    order of appearance; a detection whose track id is undefined has
    none to list. *)
Definition ids_with (c : string) (boxes : list Box) : list Z :=
  omap (fun box => if decide (cls_name box = c) then id box else None) boxes.

(** The confidences of the detections of class [c] that carry a track
    id, in order of appearance. *)
Definition confs_with (c : string) (boxes : list Box) : list float :=
  omap (fun box =>
          if decide (cls_name box = c)
          then match id box with Some _ => Some (conf box) | None => None end
          else None) boxes.

(** The number of detections of class [c], and their confidences in
    order, whatever their track id. *)
Definition count_of (c : string) (boxes : list Box) : Z :=
  Z.of_nat (length (filter (fun box => cls_name box = c) boxes)).

Definition confs_of (c : string) (boxes : list Box) : list float :=
  conf <$> filter (fun box => cls_name box = c) boxes.

(** Every detection of a session, frame after frame. *)
Definition detections (tracked : list Boxes) : list Box :=
  flat_map rows tracked.

(** The number of distinct values of a list. *)
Definition distinct (l : list Z) : Z := Z.of_nat (length (remove_dups l)).

(** What the engine guarantees of one frame: when the frame's boxes
    carry no identities ([boxes.id] is [None]), no box of it has one. *)
Definition id_consistent (boxes : Boxes) : Prop :=
  is_track boxes = false → Forall (fun box => id box = None) (rows boxes).

(** The engine keeps track [t] under one class among [boxes]. *)
Definition track_stable (t : Z) (boxes : list Box) : Prop :=
  ∀ b1 b2, b1 ∈ boxes → b2 ∈ boxes →
           id b1 = Some t → id b2 = Some t → cls_name b1 = cls_name b2.

(** A capture that is open and whose properties are finite numbers. *)
Definition readable (cap : VideoCapture) : Prop :=
  isOpened cap = true ∧
  is_finite (CAP_PROP_FRAME_WIDTH cap) = true ∧
  is_finite (CAP_PROP_FRAME_HEIGHT cap) = true ∧
  is_finite (CAP_PROP_FPS cap) = true ∧
  is_finite (CAP_PROP_FRAME_COUNT cap) = true.

(** The rows of a frame the loop of [analyze_video] gets to. *)
Definition read_rows (boxes : Boxes) : list Box :=
  if is_track boxes then rows boxes else [].

(** The ["total_frames"] entry replaced. *)
Definition with_total (n : option Z) (a : Analytics) : Analytics :=
  mkAnalytics n (unique_ids a) (class_count a) (confidence_sum a)
    (confidence_count a).

(** The dictionary [analyze_video] returns for the frames [tracked]. *)
Definition session (tracked : list Boxes) : Analytics :=
  let s := foldl track_frame video_analytics tracked in
  mkAnalytics (Some (Z.of_nat (length tracked))) (unique_ids s)
    (derive_class_count (unique_ids s) (class_count s))
    (confidence_sum s) (confidence_count s).

(** The average confidence in the words of the specification:
    [confidence_sum[c] / confidence_count[c]] if
    [confidence_count[c] > 0], else [0.0]. *)
Definition avg_confidence (sum : float) (count : Z) : float :=
  if 0 <? count then PrimFloat.div sum (float_of_int count) else 0%float.

(** A sighting of track [t] under class [c]. *)
Definition sighting (c : string) (t : Z) (box : Box) : Prop :=
  cls_name box = c ∧ id box = Some t.

#[global] Instance sighting_dec c t box : Decision (sighting c t box).
Proof. unfold sighting. apply _. Defined.

(** The sightings of track [t] under class [c] in a session, in order. *)
Definition sightings (c : string) (t : Z) (tracked : list Boxes) : list Box :=
  filter (sighting c t) (detections tracked).

(** The frames that show track [t] under class [c]. *)
Definition frames_showing (c : string) (t : Z) (tracked : list Boxes)
    : list Boxes :=
  filter (fun boxes => Exists (sighting c t) (rows boxes)) tracked.

(** A frame without its sightings of track [t] under class [c]. *)
Definition without_sightings (c : string) (t : Z) (boxes : Boxes) : Boxes :=
  mkBoxes (is_track boxes)
    (filter (fun box => ¬ sighting c t box) (rows boxes)).

(** The detections of class [c] that carry a track id, in order. *)
Definition identified_of (c : string) (boxes : list Box) : list Box :=
  filter (fun box => cls_name box = c ∧ is_Some (id box)) boxes.

(** The tracker gives a track id to one box of a frame at most. *)
Definition one_box_per_track (t : Z) (boxes : Boxes) : Prop :=
  (length (filter (fun box => id box = Some t) (rows boxes)) ≤ 1)%nat.

(** A frame without its detections of undefined track id. *)
Definition identified_only (boxes : Boxes) : Boxes :=
  mkBoxes (is_track boxes) (filter (fun box => is_Some (id box)) (rows boxes)).

(** No track id sits in the sets of two classes. *)
Definition one_class_per_id (uids : gmap string (gset Z)) : Prop :=
  ∀ t c1 c2, t ∈ ddget ∅ uids c1 → t ∈ ddget ∅ uids c2 → c1 = c2.

(** ** Sessions used as examples *)

(** A clip of 30 frames per second. *)
Definition clip30 : VideoCapture := mkCapture true 640 480 30 90.

(** A source that reports no frame rate. *)
Definition clip0 : VideoCapture := mkCapture true 640 480 0 90.

(** A source of 29.97 frames per second. *)
Definition clip_ntsc : VideoCapture := mkCapture true 640 480 29.97 90.

(** A path that does not open. *)
Definition bad_path : VideoCapture := mkCapture false 0 0 0 0.

(** The three frames of the scenario of the specification. *)
Definition scenario : list Boxes :=
  [ mkBoxes true [mkBox "Car" (Some 1) 0.9];
    mkBoxes true [mkBox "Car" (Some 1) 0.8];
    mkBoxes true [mkBox "Car" (Some 2) 0.7] ].

(** Track 1 reported as a car, then as a truck. *)
Definition reclassified : list Boxes :=
  [ mkBoxes true [mkBox "Car" (Some 1) 0.9];
    mkBoxes true [mkBox "Truck" (Some 1) 0.8] ].

(** Track 1 reported as a car, then as a truck, while track 2 stays a
    bus. *)
Definition mixed : list Boxes :=
  [ mkBoxes true [mkBox "Car" (Some 1) 0.9; mkBox "Bus" (Some 2) 0.6];
    mkBoxes true [mkBox "Truck" (Some 1) 0.8; mkBox "Bus" (Some 2) 0.7] ].

(** Ninety frames without any detection. *)
Definition quiet90 : list Boxes := replicate 90 (mkBoxes false []).

(** ** Progress reporting of [analyze_video] *)

(** [min(x, y)] on two floats: Python keeps the first argument unless a
    later one compares smaller. *)
Definition float_min (x y : float) : float :=
  if (y <? x)%float then y else x.

(** Lines 68-69: what one iteration hands to [progress_bar.progress]
    once [frame_count] frames are counted; [progress_bar] tells whether
    the caller passed a bar, [frame_total] is the frame count read at
    opening (line 25). *)
Definition report_progress (progress_bar : bool) (frame_total frame_count : Z)
    : result (option float) :=
  if progress_bar && (0 <? frame_total) then
    q ← int_truediv frame_count frame_total;
    Ret (Some (float_min q 1))
  else Ret None.

(** Lines 43-69 seen from the progress bar: the values it receives, one
    iteration after the other, [frame_count] frames being counted
    before. *)
Fixpoint progress_loop (progress_bar : bool) (frame_total : Z)
    (tracked : list Boxes) (frame_count : Z) : result (list float) :=
  match tracked with
  | [] => Ret []
  | boxes :: rest =>
      p ← report_progress progress_bar frame_total (frame_count + 1);
      ps ← progress_loop progress_bar frame_total rest (frame_count + 1);
      Ret (option_list p ++ ps)
  end.

(** ** The dashboard of [app.py] *)

(** Line 230, [sum(analytics["class_count"].values())]. The map folds
    its values in its own order; integer addition does not mind. *)
Definition total_obj (analytics : Analytics) : Z :=
  map_fold (fun _ count acc => acc + count) 0 (class_count analytics).

(** Line 233, [len(analytics["class_count"])]. *)
Definition unique_classes (analytics : Analytics) : Z :=
  Z.of_nat (size (class_count analytics)).

(** The truth value of a number: zero is false, NaN is true. *)
Definition number_truthy (d : number) : bool :=
  match d with
  | PyInt z => negb (z =? 0)
  | PyFloat f => negb (f =? 0)%float
  end.

(** Line 234: the duration the third metric formats, [None] standing
    for the text ["N/A"]. *)
Definition duration_metric (duration : number) : option number :=
  if number_truthy duration then Some duration else None.

(** ** [generate_class_graph] of [graphs.py] *)

(** Lines 4-11: nothing is drawn for an empty dictionary; otherwise one
    bar per key, of the height of its value ([None] is the early
    return). The labels and the file written are left out. *)
Definition generate_class_graph (class_count : gmap string Z)
    : option (list string * list Z) :=
  if decide (class_count = ∅) then None
  else Some ((map_to_list class_count).*1, (map_to_list class_count).*2).

(** ** The summary text in the report builders *)

(** A Python [str] as the list of its code points. *)
Definition text_of (s : string) : list N :=
  Ascii.N_of_ascii <$> String.list_ascii_of_string s.

(** [str.isspace] on one code point. *)
Definition isspace (c : N) : bool :=
  ((9 <=? c) && (c <=? 13) || (28 <=? c) && (c <=? 32)
   || (c =? 133) || (c =? 160) || (c =? 5760)
   || (8192 <=? c) && (c <=? 8202)
   || (c =? 8232) || (c =? 8233) || (c =? 8239) || (c =? 8287)
   || (c =? 12288))%N.

Fixpoint lstrip (s : list N) : list N :=
  match s with
  | [] => []
  | c :: s' => if isspace c then lstrip s' else s
  end.

(** [s.strip()]: the whitespace at both ends removed. *)
Definition strip (s : list N) : list N :=
  reverse (lstrip (reverse (lstrip s))).

(** [s.split('\n')]. *)
Fixpoint split_lines (s : list N) : list (list N) :=
  match s with
  | [] => [[]]
  | c :: s' =>
      if (c =? 10)%N then [] :: split_lines s'
      else match split_lines s' with
           | line :: lines => (c :: line) :: lines
           | [] => [[c]]
           end
  end.

(** What the builders append to the [story]. *)
Inductive flowable : Type :=
| Paragraph (text : list N) (style : string)
| Spacer (width height : Z)
| Divider (width_inches : Z)
| PageBreak.

(** The loop both builders run over the lines of the summary: a
    paragraph and a spacer of height [gap] for every line [para] with
    [para.strip()] not empty. *)
Definition append_paragraphs (style : string) (gap : Z)
    (story : list flowable) (lines : list (list N)) : list flowable :=
  foldl (fun story para =>
           match strip para with
           | [] => story
           | _ :: _ => story ++ [Paragraph para style] ++ [Spacer 1 gap]
           end) story lines.

(** [report_generator.py], [create_ai_summary_section], lines 208-219. *)
Definition create_ai_summary_section
    (story : list flowable) (ai_summary : list N) : list flowable :=
  let story := story ++ [Paragraph (text_of "2. Executive Summary (AI Analysis)")
                           "heading"] in
  let story := story ++ [Divider 5] in
  let story := story ++ [Spacer 1 10] in
  let story :=
    match ai_summary with
    | _ :: _ => append_paragraphs "body" 6 story (split_lines ai_summary)
    | [] => story ++ [Paragraph (text_of "No AI Summary available.") "body"]
    end in
  story ++ [Spacer 1 20].

(** [generate_ai_summary.py], [generate_pdf], lines 52-63. *)
Definition generate_pdf_summary
    (story : list flowable) (ai_summary : list N) : list flowable :=
  let story := story ++ [Paragraph (text_of "Executive Summary (AI Generated):")
                           "Heading2"] in
  let story := story ++ [Spacer 1 6] in
  let story := append_paragraphs "Normal" 8 story (split_lines ai_summary) in
  story ++ [Spacer 1 12].

(** ** Vocabulary of the further properties *)

(** The class and track id of the detections that carry one. *)
Definition tracked_pairs (boxes : list Box) : list (string * Z) :=
  omap (fun box => match id box with
                   | Some t => Some (cls_name box, t)
                   | None => None
                   end) boxes.

(** The classes of the detections that carry a track id. *)
Definition tracked_classes (boxes : list Box) : list string :=
  omap (fun box => match id box with
                   | Some _ => Some (cls_name box)
                   | None => None
                   end) boxes.

(** A line with something else than whitespace on it. *)
Definition nonblank (line : list N) : bool := negb (forallb isspace line).

(** The texts of the paragraphs of style [style] in a story. *)
Definition paragraphs_of (style : string) (story : list flowable)
    : list (list N) :=
  omap (fun f => match f with
                 | Paragraph text st =>
                     if decide (st = style) then Some text else None
                 | _ => None
                 end) story.

(** A dictionary that [analyze_video] or [analyze_image] returned. *)
Definition produced (a : Analytics) : Prop :=
  (∃ cap tracked d, analyze_video cap tracked = Ret (Some a, d)) ∨
  (∃ frame d, analyze_image frame = (Some a, d)).

(** ** Reading a [defaultdict] *)

Section DefaultDict.
Context {V : Type} (dflt : V).

Lemma ddget_empty k : ddget dflt ∅ k = dflt.
Proof. unfold ddget. by rewrite lookup_empty. Qed.

Lemma ddget_insert (d : gmap string V) k k' v :
  ddget dflt (<[k := v]> d) k' = if decide (k = k') then v else ddget dflt d k'.
Proof.
  unfold ddget. destruct (decide (k = k')) as [->|Hne].
  - by rewrite lookup_insert_eq.
  - by rewrite lookup_insert_ne.
Qed.

Lemma ddget_lookup (d : gmap string V) k v :
  d !! k = Some v → ddget dflt d k = v.
Proof. unfold ddget. by intros ->. Qed.
End DefaultDict.

(** ** The loop over the boxes of tracked frames *)

Lemma track_box_total a box : total_frames (track_box a box) = total_frames a.
Proof. unfold track_box. by destruct (id box). Qed.

Lemma track_box_class_count a box : class_count (track_box a box) = class_count a.
Proof. unfold track_box. by destruct (id box). Qed.

Lemma track_box_with_total n a box :
  track_box (with_total n a) box = with_total n (track_box a box).
Proof. unfold track_box. by destruct (id box). Qed.

Lemma track_boxes_total boxes : ∀ a,
  total_frames (foldl track_box a boxes) = total_frames a.
Proof.
  induction boxes as [|box boxes IH]; intros a; simpl; [done|].
  by rewrite IH, track_box_total.
Qed.

Lemma track_boxes_class_count boxes : ∀ a,
  class_count (foldl track_box a boxes) = class_count a.
Proof.
  induction boxes as [|box boxes IH]; intros a; simpl; [done|].
  by rewrite IH, track_box_class_count.
Qed.

Lemma track_boxes_with_total n boxes : ∀ a,
  foldl track_box (with_total n a) boxes = with_total n (foldl track_box a boxes).
Proof.
  induction boxes as [|box boxes IH]; intros a; simpl; [done|].
  by rewrite track_box_with_total, IH.
Qed.

Lemma track_boxes_unique_ids c boxes : ∀ a,
  ddget ∅ (unique_ids (foldl track_box a boxes)) c
  = ddget ∅ (unique_ids a) c ∪ list_to_set (ids_with c boxes).
Proof.
  induction boxes as [|[cn [t|] p] boxes IH]; intros a; simpl.
  - set_solver.
  - rewrite IH. unfold ids_with, track_box; simpl.
    rewrite ddget_insert. destruct (decide (cn = c)) as [->|]; simpl; set_solver.
  - rewrite IH. unfold ids_with, track_box; simpl.
    by destruct (decide (cn = c)).
Qed.

Lemma track_boxes_confidence_count c boxes : ∀ a,
  ddget 0 (confidence_count (foldl track_box a boxes)) c
  = ddget 0 (confidence_count a) c + Z.of_nat (length (ids_with c boxes)).
Proof.
  induction boxes as [|[cn [t|] p] boxes IH]; intros a; simpl.
  - lia.
  - rewrite IH. unfold ids_with, track_box; simpl.
    rewrite ddget_insert. destruct (decide (cn = c)) as [->|]; simpl; lia.
  - rewrite IH. unfold ids_with, track_box; simpl.
    by destruct (decide (cn = c)).
Qed.

Lemma track_boxes_confidence_sum c boxes : ∀ a,
  ddget 0%float (confidence_sum (foldl track_box a boxes)) c
  = foldl PrimFloat.add (ddget 0%float (confidence_sum a) c) (confs_with c boxes).
Proof.
  induction boxes as [|[cn [t|] p] boxes IH]; intros a; simpl.
  - done.
  - rewrite IH. unfold confs_with, track_box; simpl.
    rewrite ddget_insert. by destruct (decide (cn = c)) as [->|].
  - rewrite IH. unfold confs_with, track_box; simpl.
    by destruct (decide (cn = c)).
Qed.

(** ** The loop over the frames *)

Lemma track_frame_read_rows a boxes :
  track_frame a boxes = foldl track_box a (read_rows boxes).
Proof. unfold track_frame, read_rows. by destruct (is_track boxes). Qed.

Lemma track_frames_read_rows tracked : ∀ a,
  foldl track_frame a tracked = foldl track_box a (flat_map read_rows tracked).
Proof.
  induction tracked as [|boxes tracked IH]; intros a; simpl; [done|].
  by rewrite foldl_app, IH, track_frame_read_rows.
Qed.

Lemma track_frames_with_total n tracked a :
  foldl track_frame (with_total n a) tracked
  = with_total n (foldl track_frame a tracked).
Proof. by rewrite !track_frames_read_rows, track_boxes_with_total. Qed.

Lemma with_total_same a n : total_frames a = Some n → with_total (Some n) a = a.
Proof. destruct a; simpl. by intros ->. Qed.

Lemma count_frame_total a n :
  total_frames a = Some n → count_frame a = Ret (with_total (Some (n + 1)) a).
Proof. unfold count_frame. by intros ->. Qed.

Lemma video_loop_frames tracked : ∀ a n,
  total_frames a = Some n →
  video_loop tracked a
  = Ret (with_total (Some (n + Z.of_nat (length tracked)))
           (foldl track_frame a tracked)).
Proof.
  induction tracked as [|boxes tracked IH]; intros a n Hn.
  - simpl. rewrite Z.add_0_r. by rewrite with_total_same.
  - cbn [video_loop foldl length].
    rewrite (count_frame_total _ n)
      by (by rewrite track_frame_read_rows, track_boxes_total).
    cbn [mbind result_bind Py.bind].
    rewrite (IH _ (n + 1)) by done.
    rewrite track_frames_with_total. unfold with_total; cbn.
    do 3 f_equal. lia.
Qed.

Lemma consistent_read_rows c tracked :
  Forall id_consistent tracked →
  ids_with c (flat_map read_rows tracked) = ids_with c (detections tracked).
Proof.
  unfold detections, ids_with.
  induction 1 as [|boxes tracked Hb _ IH]; simpl; [done|].
  rewrite !omap_app, IH. f_equal.
  unfold read_rows. destruct (is_track boxes) eqn:Ht; [done|].
  specialize (Hb Ht). simpl.
  induction Hb as [|box l Hbox _ IHl]; simpl; [done|].
  rewrite Hbox. by destruct (decide (cls_name box = c)).
Qed.

(** ** Finalization *)

Lemma derive_class_count_lookup uids cc c :
  derive_class_count uids cc !! c
  = match uids !! c with
    | Some ids => Some (Z.of_nat (size ids))
    | None => cc !! c
    end.
Proof.
  unfold derive_class_count.
  apply (map_fold_weak_ind
           (fun r (m : gmap string (gset Z)) =>
              r !! c = match m !! c with
                       | Some ids => Some (Z.of_nat (size ids))
                       | None => cc !! c
                       end)).
  - by rewrite lookup_empty.
  - intros k ids m r Hk IH.
    destruct (decide (k = c)) as [->|Hne].
    + by rewrite !lookup_insert_eq.
    + by rewrite !lookup_insert_ne.
Qed.

Lemma derive_class_count_twice uids cc :
  derive_class_count uids (derive_class_count uids cc)
  = derive_class_count uids cc.
Proof.
  apply map_eq; intros c. rewrite !derive_class_count_lookup.
  by destruct (uids !! c).
Qed.

Lemma ddget_derive_class_count uids c :
  ddget 0 (derive_class_count uids ∅) c = Z.of_nat (size (ddget ∅ uids c)).
Proof.
  unfold ddget. rewrite derive_class_count_lookup.
  destruct (uids !! c); [done|].
  rewrite lookup_empty. cbn [default]. by rewrite size_empty.
Qed.

Lemma size_list_to_set_distinct (l : list Z) :
  Z.of_nat (size (list_to_set l : gset Z)) = distinct l.
Proof.
  unfold distinct.
  rewrite <- (size_list_to_set (C := gset Z) (remove_dups l))
    by apply NoDup_remove_dups.
  do 2 f_equal. apply set_eq; intros x.
  by rewrite !elem_of_list_to_set, elem_of_remove_dups.
Qed.

Lemma length_remove_dups (l : list Z) : (length (remove_dups l) ≤ length l)%nat.
Proof.
  induction l as [|x l IH]; simpl; [done|].
  destruct (decide_rel elem_of x l); simpl; lia.
Qed.

(** ** The whole of [analyze_video] *)

(** On operands below 2^53 the quotient of two ints is the binary64
    quotient of their conversions. *)
Example int_truediv_samples :
  int_truediv 90 30 = Ret 3%float ∧
  int_truediv 90 29 = Ret (float_of_int 90 / float_of_int 29)%float ∧
  int_truediv 1 3 = Ret (float_of_int 1 / float_of_int 3)%float ∧
  int_truediv 7 0 = Raise ZeroDivisionError ∧
  int_of_float 29.97 = Ret 29 ∧
  int_of_float (-2.5) = Ret (-2) ∧
  int_of_float nan = Raise ValueError ∧
  int_of_float infinity = Raise OverflowError.
Proof. repeat split; vm_compute; reflexivity. Qed.

Lemma int_of_float_finite x :
  is_finite x = true → ∃ z, int_of_float x = Ret z.
Proof.
  unfold is_finite, int_of_float. intros H.
  destruct (is_nan x); [done|]. destruct (is_infinity x); [done|]. eauto.
Qed.

Lemma int_or_nonzero x : int_or x 30 ≠ 0.
Proof. unfold int_or. destruct (Z.eqb_spec x 0); lia. Qed.

Lemma int_truediv_nonzero a b :
  b ≠ 0 → ∃ d, int_truediv a b = Ret d.
Proof.
  intros Hb. unfold int_truediv.
  destruct (Z.eqb_spec b 0); [done|]. eauto.
Qed.

Lemma analyze_video_readable cap tracked :
  readable cap →
  ∃ fps0 d,
    int_of_float (CAP_PROP_FPS cap) = Ret fps0 ∧
    int_truediv (Z.of_nat (length tracked)) (int_or fps0 30) = Ret d ∧
    analyze_video cap tracked = Ret (Some (session tracked), PyFloat d).
Proof.
  intros (Ho & Hw & Hh & Hf & Hn).
  destruct (int_of_float_finite _ Hw) as [w Ew].
  destruct (int_of_float_finite _ Hh) as [h Eh].
  destruct (int_of_float_finite _ Hf) as [fps0 Ef].
  destruct (int_of_float_finite _ Hn) as [n En].
  destruct (int_truediv_nonzero (Z.of_nat (length tracked)) (int_or fps0 30)
              (int_or_nonzero fps0)) as [d Ed].
  exists fps0, d. split; [done|]. split; [done|].
  unfold analyze_video. rewrite Ho, Ew, Eh, Ef, En. cbn [negb mbind result_bind Py.bind].
  rewrite (video_loop_frames tracked video_analytics 0), Z.add_0_l by done.
  cbn [mbind result_bind Py.bind]. unfold finalize.
  cbn [total_frames with_total]. rewrite Ed. reflexivity.
Qed.

Lemma analyze_video_inv cap tracked a d :
  analyze_video cap tracked = Ret (Some a, d) → a = session tracked.
Proof.
  unfold analyze_video. destruct (isOpened cap); [|done]. cbn [negb].
  destruct (int_of_float (CAP_PROP_FRAME_WIDTH cap)); [|done].
  destruct (int_of_float (CAP_PROP_FRAME_HEIGHT cap)); [|done].
  destruct (int_of_float (CAP_PROP_FPS cap)) as [fps0|]; [|done].
  destruct (int_of_float (CAP_PROP_FRAME_COUNT cap)); [|done].
  cbn [mbind result_bind Py.bind].
  rewrite (video_loop_frames tracked video_analytics 0), Z.add_0_l by done.
  cbn [mbind result_bind Py.bind]. unfold finalize.
  cbn [total_frames with_total].
  destruct (int_truediv _ _); [|done].
  cbn [mbind result_bind Py.bind fst snd]. by intros [= <- _].
Qed.

Lemma session_unique_ids c tracked :
  ddget ∅ (unique_ids (session tracked)) c
  = list_to_set (ids_with c (flat_map read_rows tracked)).
Proof.
  unfold session; cbn [unique_ids].
  rewrite track_frames_read_rows, track_boxes_unique_ids.
  unfold video_analytics; cbn [unique_ids]. rewrite ddget_empty. set_solver.
Qed.

Lemma session_class_count c tracked :
  ddget 0 (class_count (session tracked)) c
  = distinct (ids_with c (flat_map read_rows tracked)).
Proof.
  unfold session; cbn [class_count].
  rewrite track_frames_read_rows, track_boxes_class_count.
  unfold video_analytics at 2; cbn [class_count].
  rewrite ddget_derive_class_count, track_boxes_unique_ids.
  unfold video_analytics; cbn [unique_ids]. rewrite ddget_empty.
  rewrite <- size_list_to_set_distinct. do 2 f_equal. set_solver.
Qed.

Lemma session_confidence_count c tracked :
  ddget 0 (confidence_count (session tracked)) c
  = Z.of_nat (length (ids_with c (flat_map read_rows tracked))).
Proof.
  unfold session; cbn [confidence_count].
  rewrite track_frames_read_rows, track_boxes_confidence_count.
  unfold video_analytics; cbn [confidence_count]. rewrite ddget_empty. lia.
Qed.

Lemma session_confidence_sum c tracked :
  ddget 0%float (confidence_sum (session tracked)) c
  = foldl PrimFloat.add 0%float (confs_with c (flat_map read_rows tracked)).
Proof.
  unfold session; cbn [confidence_sum].
  rewrite track_frames_read_rows, track_boxes_confidence_sum.
  unfold video_analytics; cbn [confidence_sum]. by rewrite ddget_empty.
Qed.

(** The scenario of the specification: two cars, three sightings, and an
    average confidence of (0.9 + 0.8 + 0.7) / 3 as binary64 computes it. *)
Example scenario_report :
  analyze_video clip30 scenario = Ret (Some (session scenario), PyFloat 0.1) ∧
  ddget 0 (class_count (session scenario)) "Car" = 2 ∧
  ddget 0 (confidence_count (session scenario)) "Car" = 3 ∧
  ddget 0%float (confidence_sum (session scenario)) "Car"
  = (0 + 0.9 + 0.8 + 0.7)%float ∧
  statistics_avg_conf (session scenario) "Car" = Ret 0.8000000000000002%float.
Proof.
  split; [vm_compute; reflexivity|].
  split; [rewrite session_class_count; vm_compute; reflexivity|].
  split; [rewrite session_confidence_count; vm_compute; reflexivity|].
  split; [rewrite session_confidence_sum; reflexivity|].
  vm_compute; reflexivity.
Qed.

Lemma readable_clip30 : readable clip30.
Proof. by vm_compute. Qed.

Lemma consistent_when_tracked boxes : is_track boxes = true → id_consistent boxes.
Proof. unfold id_consistent. congruence. Qed.

Lemma consistent_scenario : Forall id_consistent scenario.
Proof.
  unfold scenario.
  repeat (constructor; [by apply consistent_when_tracked|]). constructor.
Qed.

(** ** C1: the finalized count is the number of distinct track ids *)

(** C1. For a readable video and any frames the engine hands over,
    [analyze_video] returns a dictionary in which [class_count[c]] is,
    for every class [c], the number of distinct track ids reported
    together with [c] over the whole session, the detections whose track
    id is undefined being left out. *)
Theorem class_count_distinct_ids (cap : VideoCapture) (tracked : list Boxes) :
  readable cap →
  Forall id_consistent tracked →
  ∃ a d,
    analyze_video cap tracked = Ret (Some a, d) ∧
    ∀ c, ddget 0 (class_count a) c = distinct (ids_with c (detections tracked)).
Proof.
  intros Hcap Hcons.
  destruct (analyze_video_readable cap tracked Hcap) as (fps0 & d & _ & _ & E).
  exists (session tracked), (PyFloat d). split; [done|].
  intros c. by rewrite session_class_count, consistent_read_rows.
Qed.

Lemma class_count_distinct_ids_witness :
  readable clip30 ∧ Forall id_consistent scenario ∧
  ∃ a d,
    analyze_video clip30 scenario = Ret (Some a, d) ∧
    ∀ c, ddget 0 (class_count a) c = distinct (ids_with c (detections scenario)).
Proof.
  split; [exact readable_clip30|]. split; [exact consistent_scenario|].
  exact (class_count_distinct_ids clip30 scenario
           readable_clip30 consistent_scenario).
Defined.

(** ** C2: a track seen again counts once but weighs every time *)

Lemma filter_read_rows (P : Box → Prop) `{!∀ box, Decision (P box)} tracked :
  (∀ box, P box → is_Some (id box)) →
  Forall id_consistent tracked →
  filter P (flat_map read_rows tracked) = filter P (detections tracked).
Proof.
  intros HP. unfold detections.
  induction 1 as [|boxes tracked Hb _ IH]; [done|].
  cbn [flat_map]. rewrite !filter_app, IH. f_equal.
  unfold read_rows. destruct (is_track boxes) eqn:Ht; [done|].
  specialize (Hb Ht). symmetry.
  induction Hb as [|box l Hbox _ IHl]; [done|].
  rewrite filter_cons, decide_False; [exact IHl|].
  intros [t Hid]%HP. congruence.
Qed.

Lemma read_rows_without_sightings c t tracked :
  flat_map read_rows (without_sightings c t <$> tracked)
  = filter (fun box => ¬ sighting c t box) (flat_map read_rows tracked).
Proof.
  induction tracked as [|boxes tracked IH]; [done|].
  csimpl. rewrite filter_app, IH. f_equal.
  unfold read_rows, without_sightings; cbn [is_track rows].
  by destruct (is_track boxes).
Qed.

Lemma elem_of_ids_with c x boxes :
  x ∈ ids_with c boxes ↔ ∃ box, box ∈ boxes ∧ sighting c x box.
Proof.
  unfold ids_with, sighting. rewrite list_elem_of_omap. split.
  - intros (box & Hin & Hbox). exists box.
    by destruct (decide (cls_name box = c)).
  - intros (box & Hin & Hc & Hid). exists box. by rewrite decide_True.
Qed.

Lemma ids_with_cons c box boxes :
  ids_with c (box :: boxes)
  = match id box with
    | Some x => if decide (cls_name box = c) then x :: ids_with c boxes
                else ids_with c boxes
    | None => ids_with c boxes
    end.
Proof.
  unfold ids_with. csimpl.
  destruct (decide (cls_name box = c)); by destruct (id box).
Qed.

Lemma length_ids_with_split c t boxes :
  length (ids_with c boxes)
  = (length (ids_with c (filter (fun box => ¬ sighting c t box) boxes))
     + length (filter (sighting c t) boxes))%nat.
Proof.
  induction boxes as [|box boxes IH]; [done|].
  destruct (decide (sighting c t box)) as [Hs|Hs].
  - rewrite filter_cons_False by tauto.
    rewrite (filter_cons_True (sighting c t)) by done.
    destruct Hs as [Hc Hid]. rewrite ids_with_cons, Hid, decide_True by done.
    cbn [length]. rewrite IH. lia.
  - rewrite filter_cons_True by done.
    rewrite (filter_cons_False (sighting c t)) by done.
    rewrite !ids_with_cons.
    destruct (id box); [|done].
    destruct (decide (cls_name box = c)); [|done].
    cbn [length]. by rewrite IH.
Qed.

Lemma ids_with_split c t boxes :
  filter (sighting c t) boxes ≠ [] →
  list_to_set (ids_with c boxes)
  =@{gset Z} {[t]} ∪ list_to_set
                     (ids_with c (filter (fun box => ¬ sighting c t box) boxes))
  ∧ t ∉@{gset Z} list_to_set
        (ids_with c (filter (fun box => ¬ sighting c t box) boxes)).
Proof.
  intros Hsome. split.
  - apply set_eq; intros x.
    rewrite elem_of_union, elem_of_singleton, !elem_of_list_to_set.
    rewrite !elem_of_ids_with. split.
    + intros (box & Hin & Hs). destruct (decide (x = t)) as [->|Hx]; [by left|].
      right. exists box. split; [|done].
      apply list_elem_of_filter. split; [|done].
      intros [_ Hid]. destruct Hs as [_ Hid']. congruence.
    + intros [->|(box & Hin & Hs)].
      * destruct (filter (sighting c t) boxes) as [|box l] eqn:E; [done|].
        assert (box ∈ filter (sighting c t) boxes) as Hin by (rewrite E; left).
        apply list_elem_of_filter in Hin as [? ?]. eauto.
      * apply list_elem_of_filter in Hin as [_ Hin]. eauto.
  - rewrite elem_of_list_to_set, elem_of_ids_with.
    intros (box & Hin & Hs). by apply list_elem_of_filter in Hin as [Hn _].
Qed.

Lemma confs_with_identified c boxes :
  confs_with c boxes = conf <$> identified_of c boxes.
Proof.
  unfold confs_with, identified_of.
  induction boxes as [|box boxes IH]; [done|]. csimpl. rewrite IH.
  destruct (decide (cls_name box = c)) as [Hc|Hc].
  - destruct (id box) as [x|] eqn:Hid.
    + rewrite filter_cons_True by (rewrite Hid; split; [done|by eexists]).
      done.
    + rewrite filter_cons_False; [done|].
      rewrite Hid. by intros [_ [? ?]].
  - rewrite filter_cons_False by tauto. done.
Qed.

Lemma sightings_sublist c t boxes :
  filter (sighting c t) boxes `sublist_of` identified_of c boxes.
Proof.
  unfold identified_of.
  rewrite <- (list_filter_filter_l (sighting c t)
                (fun box => cls_name box = c ∧ is_Some (id box))).
  - apply sublist_filter.
  - intros box [Hc Hid]. split; [done|by eexists].
Qed.

Lemma sightings_per_frame c t tracked :
  Forall (one_box_per_track t) tracked →
  length (sightings c t tracked) = length (frames_showing c t tracked).
Proof.
  unfold sightings, frames_showing, detections.
  induction 1 as [|boxes tracked Hone _ IH]; [done|].
  cbn [flat_map]. rewrite filter_app, length_app, IH, filter_cons.
  assert (Hle : (length (filter (sighting c t) (rows boxes)) ≤ 1)%nat).
  { etrans; [|exact Hone].
    rewrite <- (list_filter_filter_l (sighting c t)
                  (fun box => id box = Some t)) by (by intros ? [_ ?]).
    apply length_filter. }
  destruct (decide (Exists (sighting c t) (rows boxes))) as [Hex|Hex].
  - cbn [length]. apply Exists_exists in Hex as (box & Hin & Hs).
    destruct (filter (sighting c t) (rows boxes)) as [|b [|b' l]] eqn:E.
    + assert (box ∈ filter (sighting c t) (rows boxes)) as Hin'
        by by apply list_elem_of_filter.
      rewrite E in Hin'. by apply not_elem_of_nil in Hin'.
    + done.
    + cbn [length] in Hle. lia.
  - destruct (filter (sighting c t) (rows boxes)) as [|b l] eqn:E; [done|].
    exfalso. apply Hex, Exists_exists. exists b.
    assert (b ∈ filter (sighting c t) (rows boxes)) as Hin by (rewrite E; left).
    by apply list_elem_of_filter in Hin as [? ?].
Qed.

(** C2. In any session, with whatever else its frames hold, the
    sightings of track [t] under class [c] (there being at least one)
    contribute exactly 1 to the finalized [class_count[c]] and their
    number [N] to [confidence_count[c]]: these are the differences to
    the same session with the sightings taken out of its frames.
    [confidence_sum[c]] is the sum, from [0.0] and in order, of the
    confidences of the detections of class [c] that carry a track id,
    each added once, the sightings being [N] of them. [N] is the number
    of frames that show the track under the class, since a frame holds
    a track id once at most. *)
Theorem resighting_counts_once
    (cap : VideoCapture) (tracked : list Boxes) (c : string) (t : Z) :
  readable cap →
  Forall id_consistent tracked →
  sightings c t tracked ≠ [] →
  ∃ a a0 d,
    analyze_video cap tracked = Ret (Some a, d) ∧
    analyze_video cap (without_sightings c t <$> tracked) = Ret (Some a0, d) ∧
    ddget 0 (class_count a) c = ddget 0 (class_count a0) c + 1 ∧
    ddget 0 (confidence_count a) c
      = ddget 0 (confidence_count a0) c
        + Z.of_nat (length (sightings c t tracked)) ∧
    ddget 0%float (confidence_sum a) c
      = foldl PrimFloat.add 0%float
          (conf <$> identified_of c (detections tracked)) ∧
    sightings c t tracked `sublist_of` identified_of c (detections tracked) ∧
    (Forall (one_box_per_track t) tracked →
     length (sightings c t tracked) = length (frames_showing c t tracked)).
Proof.
  intros Hcap Hcons Hsome.
  destruct (analyze_video_readable cap tracked Hcap) as (fps0 & d & Ef & Ed & E).
  destruct (analyze_video_readable cap (without_sightings c t <$> tracked) Hcap)
    as (fps0' & d' & Ef' & Ed' & E').
  rewrite Ef in Ef'. injection Ef' as <-.
  rewrite length_fmap, Ed in Ed'. injection Ed' as <-.
  exists (session tracked), (session (without_sightings c t <$> tracked)),
    (PyFloat d).
  split; [exact E|]. split; [exact E'|].
  assert (Hs : filter (sighting c t) (flat_map read_rows tracked)
               = sightings c t tracked).
  { apply filter_read_rows; [|done]. intros box [_ Hid]. by eexists. }
  assert (Hi : identified_of c (flat_map read_rows tracked)
               = identified_of c (detections tracked)).
  { apply filter_read_rows; [|done]. by intros box [_ Hid]. }
  rewrite !session_class_count, !session_confidence_count,
    session_confidence_sum, read_rows_without_sightings.
  rewrite <- Hs in Hsome.
  destruct (ids_with_split c t _ Hsome) as [Hset Hnew].
  split; [|split; [|split; [|split]]].
  - rewrite <- !size_list_to_set_distinct, Hset.
    rewrite size_union, size_singleton by set_solver. lia.
  - rewrite (length_ids_with_split c t), Hs. lia.
  - by rewrite confs_with_identified, Hi.
  - rewrite <- Hs, <- Hi. apply sightings_sublist.
  - apply sightings_per_frame.
Qed.

Lemma one_box_per_track_scenario : Forall (one_box_per_track 1) scenario.
Proof. unfold scenario. repeat constructor. Qed.

Lemma resighting_counts_once_witness :
  ∃ a a0 d,
    analyze_video clip30 scenario = Ret (Some a, d) ∧
    analyze_video clip30 (without_sightings "Car" 1 <$> scenario)
    = Ret (Some a0, d) ∧
    ddget 0 (class_count a) "Car" = ddget 0 (class_count a0) "Car" + 1 ∧
    ddget 0 (confidence_count a) "Car"
      = ddget 0 (confidence_count a0) "Car"
        + Z.of_nat (length (sightings "Car" 1 scenario)) ∧
    ddget 0%float (confidence_sum a) "Car"
      = foldl PrimFloat.add 0%float
          (conf <$> identified_of "Car" (detections scenario)) ∧
    sightings "Car" 1 scenario
      `sublist_of` identified_of "Car" (detections scenario) ∧
    (Forall (one_box_per_track 1) scenario →
     length (sightings "Car" 1 scenario)
     = length (frames_showing "Car" 1 scenario)).
Proof.
  apply (resighting_counts_once clip30 scenario "Car" 1).
  - exact readable_clip30.
  - exact consistent_scenario.
  - vm_compute. discriminate.
Defined.

(** ** C3: one class per track id *)

Lemma elem_of_unique_ids boxes c t :
  t ∈ ddget ∅ (unique_ids (foldl track_box video_analytics boxes)) c
  ↔ ∃ box, box ∈ boxes ∧ cls_name box = c ∧ id box = Some t.
Proof.
  rewrite track_boxes_unique_ids.
  unfold video_analytics; cbn [unique_ids]. rewrite ddget_empty.
  rewrite elem_of_union, elem_of_list_to_set. unfold ids_with.
  rewrite list_elem_of_omap. split.
  - intros [H|(box & Hin & Hbox)]; [set_solver|].
    exists box. by destruct (decide (cls_name box = c)).
  - intros (box & Hin & Hc & Hid). right. exists box.
    by rewrite decide_True.
Qed.

Lemma read_rows_detections box tracked :
  box ∈ flat_map read_rows tracked → box ∈ detections tracked.
Proof.
  unfold detections. rewrite !list_elem_of_In, !in_flat_map.
  intros (boxes & Hin & Hbox). exists boxes. split; [done|].
  unfold read_rows in Hbox. destruct (is_track boxes); [done|].
  by apply list_elem_of_In, not_elem_of_nil in Hbox.
Qed.

(** C3, as the code has it: a track id whose class changes between two
    frames ends up in the sets of both classes, and is counted under
    both. *)
Lemma track_id_in_two_classes :
  ∃ a d,
    analyze_video clip30 reclassified = Ret (Some a, d) ∧
    1 ∈ ddget ∅ (unique_ids a) "Car" ∧
    1 ∈ ddget ∅ (unique_ids a) "Truck" ∧
    ddget 0 (class_count a) "Car" = 1 ∧
    ddget 0 (class_count a) "Truck" = 1 ∧
    ¬ one_class_per_id (unique_ids a).
Proof.
  destruct (analyze_video_readable clip30 reclassified readable_clip30)
    as (fps0 & d & _ & _ & E).
  exists (session reclassified), (PyFloat d). split; [exact E|].
  assert (Hcar : 1 ∈ ddget ∅ (unique_ids (session reclassified)) "Car").
  { rewrite session_unique_ids, elem_of_list_to_set.
    apply list_elem_of_In. vm_compute. tauto. }
  assert (Htruck : 1 ∈ ddget ∅ (unique_ids (session reclassified)) "Truck").
  { rewrite session_unique_ids, elem_of_list_to_set.
    apply list_elem_of_In. vm_compute. tauto. }
  split; [exact Hcar|]. split; [exact Htruck|].
  split; [rewrite session_class_count; vm_compute; reflexivity|].
  split; [rewrite session_class_count; vm_compute; reflexivity|].
  intros H. specialize (H 1 "Car" "Truck" Hcar Htruck). discriminate H.
Qed.

(** C3, amended. A track id is in [unique_ids[c]] exactly for the
    classes [c] it was read with, the boxes read being those of the
    frames whose boxes carry identities: the aggregator removes
    nothing. Hence a track id that the engine keeps under one class is
    in the set of one class at most, after any number of boxes of the
    session and in the dictionary [analyze_video] returns, whatever
    happens to the other ids; and a track id that was read under two
    classes is in the sets of both and counted under both,
    [class_count[c]] being the size of [unique_ids[c]]. *)
Theorem stable_id_has_one_class (cap : VideoCapture) (tracked : list Boxes) :
  readable cap →
  (∀ boxes t,
     boxes `prefix_of` flat_map read_rows tracked →
     track_stable t (detections tracked) →
     ∀ c1 c2,
       t ∈ ddget ∅ (unique_ids (foldl track_box video_analytics boxes)) c1 →
       t ∈ ddget ∅ (unique_ids (foldl track_box video_analytics boxes)) c2 →
       c1 = c2) ∧
  ∃ a d,
    analyze_video cap tracked = Ret (Some a, d) ∧
    (∀ c t, t ∈ ddget ∅ (unique_ids a) c
            ↔ ∃ box, box ∈ flat_map read_rows tracked ∧ sighting c t box) ∧
    (∀ t, track_stable t (detections tracked) →
          ∀ c1 c2, t ∈ ddget ∅ (unique_ids a) c1 →
                   t ∈ ddget ∅ (unique_ids a) c2 → c1 = c2) ∧
    (∀ t c1 c2 b1 b2,
       b1 ∈ flat_map read_rows tracked → b2 ∈ flat_map read_rows tracked →
       sighting c1 t b1 → sighting c2 t b2 →
       t ∈ ddget ∅ (unique_ids a) c1 ∧ t ∈ ddget ∅ (unique_ids a) c2) ∧
    (∀ c, ddget 0 (class_count a) c
          = Z.of_nat (size (ddget ∅ (unique_ids a) c))).
Proof.
  intros Hcap.
  assert (Hpre : ∀ boxes t,
     boxes `prefix_of` flat_map read_rows tracked →
     track_stable t (detections tracked) →
     ∀ c1 c2,
       t ∈ ddget ∅ (unique_ids (foldl track_box video_analytics boxes)) c1 →
       t ∈ ddget ∅ (unique_ids (foldl track_box video_analytics boxes)) c2 →
       c1 = c2).
  { intros boxes t [rest Hrest] Hstable c1 c2.
    rewrite !elem_of_unique_ids.
    intros (b1 & Hin1 & <- & Hid1) (b2 & Hin2 & <- & Hid2).
    apply (Hstable b1 b2); try done;
      apply read_rows_detections; rewrite Hrest; set_solver. }
  split; [exact Hpre|].
  destruct (analyze_video_readable cap tracked Hcap) as (fps0 & d & _ & _ & E).
  exists (session tracked), (PyFloat d). split; [exact E|].
  assert (Hiff : ∀ c t, t ∈ ddget ∅ (unique_ids (session tracked)) c
            ↔ ∃ box, box ∈ flat_map read_rows tracked ∧ sighting c t box).
  { intros c t. unfold session; cbn [unique_ids].
    rewrite track_frames_read_rows. apply elem_of_unique_ids. }
  split; [exact Hiff|]. split; [|split].
  - intros t Hstable c1 c2. unfold session; cbn [unique_ids].
    rewrite track_frames_read_rows. by apply Hpre.
  - intros t c1 c2 b1 b2 Hin1 Hin2 Hs1 Hs2. rewrite !Hiff.
    split; [by exists b1|by exists b2].
  - intros c. rewrite session_class_count, session_unique_ids.
    by rewrite <- size_list_to_set_distinct.
Qed.

Lemma track_stable_mixed : track_stable 2 (detections mixed).
Proof.
  intros b1 b2 H1 H2 Hid1 Hid2.
  assert (Hbus : ∀ b, b ∈ detections mixed → id b = Some 2 →
                      cls_name b = "Bus").
  { intros b Hb. apply list_elem_of_In in Hb. cbn in Hb.
    destruct Hb as [<-|[<-|[<-|[<-|[]]]]]; cbn; congruence. }
  by rewrite (Hbus b1), (Hbus b2).
Qed.

Lemma stable_id_has_one_class_witness :
  ∃ a d,
    analyze_video clip30 mixed = Ret (Some a, d) ∧
    (∀ c1 c2, 2 ∈ ddget ∅ (unique_ids a) c1 →
              2 ∈ ddget ∅ (unique_ids a) c2 → c1 = c2) ∧
    1 ∈ ddget ∅ (unique_ids a) "Car" ∧
    1 ∈ ddget ∅ (unique_ids a) "Truck".
Proof.
  destruct (stable_id_has_one_class clip30 mixed readable_clip30)
    as (_ & a & d & E & _ & Hstable & Hboth & _).
  exists a, d. split; [exact E|].
  split; [exact (Hstable 2 track_stable_mixed)|].
  apply (Hboth 1 "Car" "Truck" (mkBox "Car" (Some 1) 0.9)
           (mkBox "Truck" (Some 1) 0.8)).
  - apply list_elem_of_In. cbn. left. reflexivity.
  - apply list_elem_of_In. cbn. right. right. left. reflexivity.
  - split; reflexivity.
  - split; reflexivity.
Defined.

(** ** C4: duration *)

Lemma analyze_video_duration cap tracked fps0 d :
  readable cap →
  int_of_float (CAP_PROP_FPS cap) = Ret fps0 →
  int_truediv (Z.of_nat (length tracked)) (int_or fps0 30) = Ret d →
  analyze_video cap tracked = Ret (Some (session tracked), PyFloat d).
Proof.
  intros Hcap Hfps Hd.
  destruct (analyze_video_readable cap tracked Hcap) as (f & q & Ef & Eq & E).
  rewrite Hfps in Ef. injection Ef as <-.
  rewrite Hd in Eq. injection Eq as <-. exact E.
Qed.

(** C4, as the code has it: a source whose frame rate reads 0 is timed
    at 30 frames per second, so that 90 frames last 3.0 seconds and not
    0; and the frame rate is truncated to an integer before the
    division, so that 90 frames at 29.97 frames per second are timed at
    29 frames per second. *)
Lemma duration_of_zero_frame_rate :
  (∃ a, analyze_video clip0 quiet90 = Ret (Some a, PyFloat 3) ∧
        total_frames a = Some 90 ∧ (3 =? 0)%float = false) ∧
  (∃ a d, analyze_video clip_ntsc quiet90 = Ret (Some a, PyFloat d) ∧
          d = (90 / 29)%float ∧ d ≠ (90 / 29.97)%float).
Proof.
  split.
  - exists (session quiet90). split; [|split; reflexivity].
    apply (analyze_video_duration clip0 quiet90 0); by vm_compute.
  - exists (session quiet90), (90 / 29)%float.
    split; [|split; [reflexivity|]].
    + apply (analyze_video_duration clip_ntsc quiet90 29); by vm_compute.
    + intros H. apply (f_equal Prim2SF) in H. vm_compute in H. discriminate H.
Qed.

(** C4, amended. [analyze_video] reports [total_frames / fps], where
    [total_frames] is the number of frames read and [fps] is the source's
    frame rate truncated to an integer, 30 standing in when that integer
    is 0; ninety frames at 30 frames per second last 3.0 seconds; and
    [analyze_image] reports a duration of exactly 0. *)
Theorem duration_by_truncated_frame_rate
    (cap : VideoCapture) (tracked : list Boxes) :
  readable cap →
  (∃ fps0 a d,
     int_of_float (CAP_PROP_FPS cap) = Ret fps0 ∧
     analyze_video cap tracked = Ret (Some a, PyFloat d) ∧
     total_frames a = Some (Z.of_nat (length tracked)) ∧
     int_truediv (Z.of_nat (length tracked)) (if fps0 =? 0 then 30 else fps0)
       = Ret d) ∧
  int_truediv 90 30 = Ret 3%float ∧
  (∀ frame, snd (analyze_image frame) = PyInt 0).
Proof.
  intros Hcap. split; [|split].
  - destruct (analyze_video_readable cap tracked Hcap) as (fps0 & d & Ef & Ed & E).
    by exists fps0, (session tracked), d.
  - by vm_compute.
  - by intros [boxes|].
Qed.

Lemma duration_by_truncated_frame_rate_witness :
  (∃ fps0 a d,
     int_of_float (CAP_PROP_FPS clip30) = Ret fps0 ∧
     analyze_video clip30 quiet90 = Ret (Some a, PyFloat d) ∧
     total_frames a = Some (Z.of_nat (length quiet90)) ∧
     int_truediv (Z.of_nat (length quiet90)) (if fps0 =? 0 then 30 else fps0)
       = Ret d) ∧
  int_truediv 90 30 = Ret 3%float ∧
  (∀ frame, snd (analyze_image frame) = PyInt 0).
Proof.
  apply (duration_by_truncated_frame_rate clip30 quiet90).
  by vm_compute.
Defined.

(** ** C5: detections without a track id *)

Lemma track_box_undefined a box : id box = None → track_box a box = a.
Proof. unfold track_box. by intros ->. Qed.

Lemma track_boxes_identified boxes : ∀ a,
  foldl track_box a (filter (fun box => is_Some (id box)) boxes)
  = foldl track_box a boxes.
Proof.
  induction boxes as [|box boxes IH]; intros a; [done|].
  rewrite filter_cons. destruct (decide (is_Some (id box))) as [Hid|Hid].
  - simpl. by rewrite IH.
  - simpl. rewrite IH, (track_box_undefined a box); [done|].
    by apply eq_None_not_Some.
Qed.

Lemma track_frame_identified a boxes :
  track_frame a (identified_only boxes) = track_frame a boxes.
Proof.
  unfold track_frame, identified_only; cbn [is_track rows].
  destruct (is_track boxes); [|done]. apply track_boxes_identified.
Qed.

Lemma video_loop_identified tracked : ∀ a,
  video_loop (identified_only <$> tracked) a = video_loop tracked a.
Proof.
  induction tracked as [|boxes tracked IH]; intros a; [done|].
  csimpl. rewrite track_frame_identified.
  destruct (count_frame (track_frame a boxes)); [|done]. apply IH.
Qed.

(** C5. A detection whose track id is undefined leaves the dictionary
    as it is, and so does a session: [analyze_video] returns the same
    dictionary (the same [unique_ids], [class_count], [confidence_sum]
    and [confidence_count]) and the same duration when every detection
    without a track id is taken out of its frames. *)
Theorem undefined_track_id_ignored (cap : VideoCapture) (tracked : list Boxes) :
  (∀ a box, id box = None → track_box a box = a) ∧
  analyze_video cap (identified_only <$> tracked) = analyze_video cap tracked.
Proof.
  split; [exact track_box_undefined|].
  unfold analyze_video. by rewrite video_loop_identified.
Qed.

(** ** C6: the average confidence *)

Lemma float_div_int_positive x n :
  0 < n → float_div_int x n = Ret (x / float_of_int n)%float.
Proof.
  intros Hn. unfold float_div_int. destruct (Z.eqb_spec n 0); [lia|done].
Qed.

Lemma statistics_avg_conf_rule a c :
  statistics_avg_conf a c
  = Ret (avg_confidence (ddget 0%float (confidence_sum a) c)
           (ddget 0 (confidence_count a) c)).
Proof.
  unfold statistics_avg_conf, avg_confidence.
  destruct (Z.ltb_spec 0 (ddget 0 (confidence_count a) c)); [|done].
  by rewrite float_div_int_positive.
Qed.

Lemma summary_avg_conf_rule a c :
  summary_avg_conf a c
  = Ret (avg_confidence (ddget 0%float (confidence_sum a) c)
           (ddget 0 (confidence_count a) c)).
Proof.
  unfold summary_avg_conf, avg_confidence.
  destruct (Z.ltb_spec 0 (ddget 0 (confidence_count a) c)); [|done].
  by rewrite float_div_int_positive.
Qed.

Lemma table_rows_ext avg1 avg2 a :
  (∀ c, avg1 a c = avg2 a c) → table_rows avg1 a = table_rows avg2 a.
Proof.
  intros H. unfold table_rows.
  induction (map_to_list (class_count a)) as [|item l IH]; [done|].
  cbn [mapM]. by rewrite H, IH.
Qed.

(** C6. For every dictionary and every class [c], both report builders
    compute the same average, the one of the specification:
    [confidence_sum[c] / confidence_count[c]] when
    [confidence_count[c] > 0], and [0.0] otherwise, in particular when
    [confidence_count[c]] is 0. The computation returns a value in every
    case, so no division by zero is raised, and the two builders fill
    the same rows. *)
Theorem avg_confidence_rule (a : Analytics) (c : string) :
  statistics_avg_conf a c
  = Ret (avg_confidence (ddget 0%float (confidence_sum a) c)
           (ddget 0 (confidence_count a) c)) ∧
  summary_avg_conf a c = statistics_avg_conf a c ∧
  statistics_avg_conf a c ≠ Raise ZeroDivisionError ∧
  generate_pdf a = create_statistics_section a.
Proof.
  split; [apply statistics_avg_conf_rule|].
  split; [by rewrite summary_avg_conf_rule, statistics_avg_conf_rule|].
  split; [by rewrite statistics_avg_conf_rule|].
  apply table_rows_ext. intros c'.
  by rewrite summary_avg_conf_rule, statistics_avg_conf_rule.
Qed.

(** ** C7: finalizing twice *)

(** C7. For every dictionary and frame rate, when the finalize step
    returns, a second finalize step on its result returns the same
    dictionary and the same duration: [class_count], both confidence
    maps (hence every average) and the duration are those of the first
    application. *)
Theorem finalize_idempotent
    (a a1 : Analytics) (fps : Z) (d : number) :
  finalize a fps = Ret (a1, d) →
  finalize a1 fps = Ret (a1, d) ∧
  (∀ c, statistics_avg_conf a1 c = statistics_avg_conf a c).
Proof.
  unfold finalize. cbn [total_frames].
  destruct (total_frames a) as [n|] eqn:Hn; [|done].
  destruct (int_truediv n fps) as [q|] eqn:Hq; [|done].
  cbn [mbind result_bind Py.bind]. intros [= <- <-].
  cbn [total_frames unique_ids class_count confidence_sum confidence_count].
  rewrite Hq. cbn [mbind result_bind Py.bind].
  by rewrite derive_class_count_twice.
Qed.

Lemma finalize_idempotent_witness :
  finalize (with_total (Some 3) (foldl track_frame video_analytics scenario)) 30
  = Ret (session scenario, PyFloat 0.1) ∧
  finalize (session scenario) 30 = Ret (session scenario, PyFloat 0.1) ∧
  (∀ c, statistics_avg_conf (session scenario) c
        = statistics_avg_conf
            (with_total (Some 3) (foldl track_frame video_analytics scenario)) c).
Proof.
  assert (H : finalize (with_total (Some 3)
                          (foldl track_frame video_analytics scenario)) 30
              = Ret (session scenario, PyFloat 0.1)) by reflexivity.
  split; [exact H|].
  exact (finalize_idempotent _ _ 30 _ H).
Defined.

(** ** C8: a single image *)

Lemma count_boxes_class_count c boxes : ∀ a,
  ddget 0 (class_count (foldl count_box a boxes)) c
  = ddget 0 (class_count a) c + count_of c boxes.
Proof.
  unfold count_of.
  induction boxes as [|box boxes IH]; intros a; [simpl; lia|].
  cbn [foldl]. rewrite IH, filter_cons. unfold count_box; cbn [class_count].
  rewrite ddget_insert.
  destruct (decide (cls_name box = c)) as [->|]; simpl; lia.
Qed.

Lemma count_boxes_confidence_count c boxes : ∀ a,
  ddget 0 (confidence_count (foldl count_box a boxes)) c
  = ddget 0 (confidence_count a) c + count_of c boxes.
Proof.
  unfold count_of.
  induction boxes as [|box boxes IH]; intros a; [simpl; lia|].
  cbn [foldl]. rewrite IH, filter_cons.
  unfold count_box; cbn [confidence_count].
  rewrite ddget_insert.
  destruct (decide (cls_name box = c)) as [->|]; simpl; lia.
Qed.

Lemma count_boxes_confidence_sum c boxes : ∀ a,
  ddget 0%float (confidence_sum (foldl count_box a boxes)) c
  = foldl PrimFloat.add (ddget 0%float (confidence_sum a) c) (confs_of c boxes).
Proof.
  unfold confs_of.
  induction boxes as [|box boxes IH]; intros a; [done|].
  cbn [foldl]. rewrite IH, filter_cons.
  unfold count_box; cbn [confidence_sum].
  rewrite ddget_insert.
  by destruct (decide (cls_name box = c)) as [->|].
Qed.

(** C8. For every decoded image and every class [c], [analyze_image]
    returns a dictionary in which [class_count[c]] is the number [K] of
    detections of class [c] in the frame; [confidence_count[c]] is [K]
    as well, and [confidence_sum[c]] is the sum, from [0.0] and in
    order, of the confidences of these [K] detections. *)
Theorem single_shot_counts (boxes : Boxes) (c : string) :
  ∃ a,
    analyze_image (Some boxes) = (Some a, PyInt 0) ∧
    ddget 0 (class_count a) c = count_of c (rows boxes) ∧
    ddget 0 (confidence_count a) c = count_of c (rows boxes) ∧
    ddget 0%float (confidence_sum a) c
      = foldl PrimFloat.add 0%float (confs_of c (rows boxes)) ∧
    Z.of_nat (length (confs_of c (rows boxes))) = count_of c (rows boxes).
Proof.
  eexists. split; [reflexivity|].
  rewrite count_boxes_class_count, count_boxes_confidence_count,
    count_boxes_confidence_sum.
  unfold image_analytics; cbn [class_count confidence_count confidence_sum].
  rewrite !ddget_empty. repeat split; try lia.
  unfold confs_of, count_of. by rewrite length_fmap.
Qed.

(** ** C9: a source that does not open *)

(** C9. A video that does not open and an image that does not decode
    make [analyze_video] and [analyze_image] return [None] in place of
    the dictionary, with duration 0; a readable video and a decoded
    image always come back with a dictionary, also when no frame holds
    a detection, so that the two outcomes cannot be confused. *)
Theorem unreadable_source_no_state
    (cap cap' : VideoCapture) (tracked : list Boxes) (boxes : Boxes) :
  isOpened cap = false →
  readable cap' →
  analyze_video cap tracked = Ret (None, PyInt 0) ∧
  analyze_image None = (None, PyInt 0) ∧
  (∃ a d, analyze_video cap' tracked = Ret (Some a, d)) ∧
  (∃ a d, analyze_video cap' [] = Ret (Some a, d) ∧
          unique_ids a = ∅ ∧ class_count a = ∅ ∧
          confidence_sum a = ∅ ∧ confidence_count a = ∅) ∧
  (∃ a, analyze_image (Some boxes) = (Some a, PyInt 0)) ∧
  analyze_image (Some (mkBoxes false [])) = (Some image_analytics, PyInt 0).
Proof.
  intros Hclosed Hcap'.
  split; [unfold analyze_video; by rewrite Hclosed|].
  split; [done|].
  split.
  { destruct (analyze_video_readable cap' tracked Hcap') as (f & d & _ & _ & E).
    by exists (session tracked), (PyFloat d). }
  split.
  { destruct (analyze_video_readable cap' [] Hcap') as (f & d & _ & _ & E).
    exists (session []), (PyFloat d). split; [exact E|].
    unfold session; cbn. unfold derive_class_count. by rewrite map_fold_empty. }
  split; [by eexists|done].
Qed.

Lemma unreadable_source_no_state_witness :
  analyze_video bad_path scenario = Ret (None, PyInt 0) ∧
  analyze_image None = (None, PyInt 0) ∧
  (∃ a d, analyze_video clip30 scenario = Ret (Some a, d)) ∧
  (∃ a d, analyze_video clip30 [] = Ret (Some a, d) ∧
          unique_ids a = ∅ ∧ class_count a = ∅ ∧
          confidence_sum a = ∅ ∧ confidence_count a = ∅) ∧
  (∃ a, analyze_image (Some (mkBoxes false [])) = (Some a, PyInt 0)) ∧
  analyze_image (Some (mkBoxes false [])) = (Some image_analytics, PyInt 0).
Proof.
  apply (unreadable_source_no_state bad_path clip30 scenario (mkBoxes false [])).
  - reflexivity.
  - by vm_compute.
Defined.

(** ** C10: counted ids against confidence instances *)

Lemma size_list_to_set_le (l : list Z) :
  (size (list_to_set l : gset Z) ≤ length l)%nat.
Proof.
  pose proof (size_list_to_set_distinct l) as H. unfold distinct in H.
  pose proof (length_remove_dups l). lia.
Qed.

(** C10. In every dictionary [analyze_video] returns, [class_count[c]]
    is at most [confidence_count[c]] for every class [c] of
    [unique_ids]. *)
Theorem class_count_le_confidence_count
    (cap : VideoCapture) (tracked : list Boxes)
    (a : Analytics) (d : number) (c : string) :
  analyze_video cap tracked = Ret (Some a, d) →
  c ∈ dom (unique_ids a) →
  ddget 0 (class_count a) c ≤ ddget 0 (confidence_count a) c.
Proof.
  intros E _. apply analyze_video_inv in E as ->.
  rewrite session_class_count, session_confidence_count.
  rewrite <- size_list_to_set_distinct.
  pose proof (size_list_to_set_le (ids_with c (flat_map read_rows tracked))).
  lia.
Qed.

Lemma class_count_le_confidence_count_witness :
  analyze_video clip30 scenario = Ret (Some (session scenario), PyFloat 0.1) ∧
  "Car" ∈ dom (unique_ids (session scenario)) ∧
  ddget 0 (class_count (session scenario)) "Car"
  ≤ ddget 0 (confidence_count (session scenario)) "Car".
Proof.
  assert (E : analyze_video clip30 scenario
              = Ret (Some (session scenario), PyFloat 0.1))
    by (vm_compute; reflexivity).
  assert (Hdom : "Car" ∈ dom (unique_ids (session scenario)))
    by (apply elem_of_dom; eexists; vm_compute; reflexivity).
  split; [exact E|]. split; [exact Hdom|].
  exact (class_count_le_confidence_count clip30 scenario _ _ "Car" E Hdom).
Defined.

(** * Further properties of the code *)

(** ** The keys and entries of the tracked dictionary *)

Lemma track_boxes_unique_ids_lookup c boxes : ∀ a,
  unique_ids (foldl track_box a boxes) !! c
  = match ids_with c boxes with
    | [] => unique_ids a !! c
    | l => Some (ddget ∅ (unique_ids a) c ∪ list_to_set l)
    end.
Proof.
  induction boxes as [|[cn [t|] p] boxes IH]; intros a; [done|..].
  - cbn [foldl]. rewrite IH. unfold ids_with; csimpl. fold (ids_with c boxes).
    unfold track_box; cbn [id cls_name conf unique_ids].
    destruct (decide (cn = c)) as [->|Hne].
    + rewrite ddget_insert, decide_True, lookup_insert_eq by done.
      destruct (ids_with c boxes); f_equal; set_solver.
    + rewrite ddget_insert, decide_False, lookup_insert_ne by done.
      done.
  - cbn [foldl]. rewrite IH. unfold ids_with; csimpl. fold (ids_with c boxes).
    by destruct (decide (cn = c)).
Qed.

Lemma track_boxes_confidence_count_lookup c boxes : ∀ a,
  confidence_count (foldl track_box a boxes) !! c
  = match ids_with c boxes with
    | [] => confidence_count a !! c
    | l => Some (ddget 0 (confidence_count a) c + Z.of_nat (length l))
    end.
Proof.
  induction boxes as [|[cn [t|] p] boxes IH]; intros a; [done|..].
  - cbn [foldl]. rewrite IH. unfold ids_with; csimpl. fold (ids_with c boxes).
    unfold track_box; cbn [id cls_name conf confidence_count].
    destruct (decide (cn = c)) as [->|Hne].
    + rewrite ddget_insert, decide_True, lookup_insert_eq by done.
      destruct (ids_with c boxes); f_equal; cbn [length]; lia.
    + rewrite ddget_insert, decide_False, lookup_insert_ne by done.
      done.
  - cbn [foldl]. rewrite IH. unfold ids_with; csimpl. fold (ids_with c boxes).
    by destruct (decide (cn = c)).
Qed.

Lemma track_boxes_confidence_sum_dom c boxes : ∀ a,
  is_Some (confidence_sum (foldl track_box a boxes) !! c)
  ↔ is_Some (confidence_sum a !! c) ∨ ids_with c boxes ≠ [].
Proof.
  induction boxes as [|[cn [t|] p] boxes IH]; intros a.
  - simpl. naive_solver.
  - cbn [foldl]. rewrite IH. unfold ids_with; csimpl. fold (ids_with c boxes).
    unfold track_box; cbn [id cls_name conf confidence_sum].
    destruct (decide (cn = c)) as [->|Hne].
    + rewrite lookup_insert_eq. split; [by right|intros _; by left].
    + by rewrite lookup_insert_ne.
  - cbn [foldl]. rewrite IH. unfold ids_with; csimpl. fold (ids_with c boxes).
    by destruct (decide (cn = c)).
Qed.

Lemma ids_with_nil_iff c boxes :
  ids_with c boxes ≠ [] ↔ c ∈ tracked_classes boxes.
Proof.
  unfold ids_with, tracked_classes.
  induction boxes as [|[cn [t|] p] boxes IH]; csimpl.
  - split; [done|]. by intros ?%not_elem_of_nil.
  - rewrite elem_of_cons. destruct (decide (cn = c)) as [->|Hne].
    + split; [by left|done].
    + rewrite IH. naive_solver.
  - by destruct (decide (cn = c)).
Qed.

Lemma session_unique_ids_lookup c tracked :
  unique_ids (session tracked) !! c
  = match ids_with c (flat_map read_rows tracked) with
    | [] => None
    | l => Some (list_to_set l)
    end.
Proof.
  unfold session; cbn [unique_ids].
  rewrite track_frames_read_rows, track_boxes_unique_ids_lookup.
  unfold video_analytics; cbn [unique_ids]. rewrite ddget_empty, lookup_empty.
  destruct (ids_with _ _); [done|]. f_equal. set_solver.
Qed.

Lemma session_class_count_lookup c tracked :
  class_count (session tracked) !! c
  = match ids_with c (flat_map read_rows tracked) with
    | [] => None
    | l => Some (distinct l)
    end.
Proof.
  pose proof (session_unique_ids_lookup c tracked) as Hu.
  unfold session in *; cbn [unique_ids class_count] in *.
  rewrite derive_class_count_lookup, Hu.
  rewrite track_frames_read_rows, track_boxes_class_count.
  unfold video_analytics at 1; cbn [class_count]. rewrite lookup_empty.
  destruct (ids_with _ _) as [|t l]; [done|].
  by rewrite size_list_to_set_distinct.
Qed.

Lemma session_confidence_count_lookup c tracked :
  confidence_count (session tracked) !! c
  = match ids_with c (flat_map read_rows tracked) with
    | [] => None
    | l => Some (Z.of_nat (length l))
    end.
Proof.
  unfold session; cbn [confidence_count].
  rewrite track_frames_read_rows, track_boxes_confidence_count_lookup.
  unfold video_analytics; cbn [confidence_count].
  rewrite ddget_empty, lookup_empty.
  destruct (ids_with _ _); [done|]. f_equal.
Qed.

Lemma session_confidence_sum_dom c tracked :
  is_Some (confidence_sum (session tracked) !! c)
  ↔ ids_with c (flat_map read_rows tracked) ≠ [].
Proof.
  unfold session; cbn [confidence_sum].
  rewrite track_frames_read_rows, track_boxes_confidence_sum_dom.
  unfold video_analytics; cbn [confidence_sum]. rewrite lookup_empty.
  split; [intros [[? ?]|?]; done|by right].
Qed.

Lemma distinct_positive (l : list Z) : l ≠ [] → 1 ≤ distinct l.
Proof.
  unfold distinct. intros Hl.
  destruct (remove_dups l) as [|x r] eqn:E; [|cbn [length]; lia].
  destruct l as [|y l]; [done|].
  assert (y ∈ remove_dups (y :: l)) as Hy
    by (apply elem_of_remove_dups; left).
  rewrite E in Hy. by apply not_elem_of_nil in Hy.
Qed.

Lemma elem_of_tracked_classes c tracked :
  c ∈ tracked_classes (flat_map read_rows tracked)
  ↔ ∃ boxes box, boxes ∈ tracked ∧ is_track boxes = true ∧
                 box ∈ rows boxes ∧ cls_name box = c ∧ is_Some (id box).
Proof.
  unfold tracked_classes. rewrite list_elem_of_omap. split.
  - intros (box & Hin & Hbox).
    apply list_elem_of_In, in_flat_map in Hin as (boxes & Hboxes & Hrow).
    exists boxes, box. unfold read_rows in Hrow.
    destruct (is_track boxes); [|done].
    destruct (id box); [|done]. injection Hbox as <-.
    by rewrite !list_elem_of_In.
  - intros (boxes & box & Hboxes & Ht & Hrow & <- & [t Hid]).
    exists box. rewrite Hid. split; [|done].
    apply list_elem_of_In, in_flat_map. exists boxes.
    unfold read_rows. rewrite Ht. by rewrite <- !list_elem_of_In.
Qed.

Lemma session_dom_unique_ids c tracked :
  c ∈ dom (unique_ids (session tracked))
  ↔ ids_with c (flat_map read_rows tracked) ≠ [].
Proof.
  rewrite elem_of_dom, session_unique_ids_lookup.
  destruct (ids_with _ _); [split; [by intros [? ?]|done]|].
  split; [done|eauto].
Qed.

(** X1. In the dictionary [analyze_video] returns, [class_count],
    [confidence_sum] and [confidence_count] have the keys of
    [unique_ids], and a class is a key exactly when some frame whose
    boxes carry identities holds a box of that class with a track id. *)
Theorem tracked_keys_agree
    (cap : VideoCapture) (tracked : list Boxes) (a : Analytics) (d : number) :
  analyze_video cap tracked = Ret (Some a, d) →
  dom (class_count a) = dom (unique_ids a) ∧
  dom (confidence_sum a) = dom (unique_ids a) ∧
  dom (confidence_count a) = dom (unique_ids a) ∧
  ∀ c, c ∈ dom (unique_ids a)
       ↔ ∃ boxes box, boxes ∈ tracked ∧ is_track boxes = true ∧
                      box ∈ rows boxes ∧ cls_name box = c ∧ is_Some (id box).
Proof.
  intros E. apply analyze_video_inv in E as ->.
  repeat split.
  - apply set_eq; intros c. rewrite session_dom_unique_ids, elem_of_dom.
    rewrite session_class_count_lookup.
    destruct (ids_with _ _); [split; [by intros [? ?]|done]|].
    split; [done|eauto].
  - apply set_eq; intros c. rewrite session_dom_unique_ids, elem_of_dom.
    apply session_confidence_sum_dom.
  - apply set_eq; intros c. rewrite session_dom_unique_ids, elem_of_dom.
    rewrite session_confidence_count_lookup.
    destruct (ids_with _ _); [split; [by intros [? ?]|done]|].
    split; [done|eauto].
  - rewrite session_dom_unique_ids, ids_with_nil_iff.
    apply elem_of_tracked_classes.
  - rewrite session_dom_unique_ids, ids_with_nil_iff.
    apply elem_of_tracked_classes.
Qed.

Lemma analyze_video_scenario :
  analyze_video clip30 scenario = Ret (Some (session scenario), PyFloat 0.1).
Proof. vm_compute; reflexivity. Qed.

Lemma tracked_keys_agree_witness :
  dom (class_count (session scenario)) = dom (unique_ids (session scenario)) ∧
  dom (confidence_sum (session scenario)) = dom (unique_ids (session scenario)) ∧
  dom (confidence_count (session scenario))
  = dom (unique_ids (session scenario)) ∧
  ∀ c, c ∈ dom (unique_ids (session scenario))
       ↔ ∃ boxes box, boxes ∈ scenario ∧ is_track boxes = true ∧
                      box ∈ rows boxes ∧ cls_name box = c ∧ is_Some (id box).
Proof.
  exact (tracked_keys_agree clip30 scenario _ _ analyze_video_scenario).
Defined.

(** X2. Every class listed in the [class_count] that [analyze_video]
    returns has a count of at least 1, and the same class has a
    [confidence_count] entry that is at least that count: no class is
    reported with zero objects. *)
Theorem tracked_counts_positive
    (cap : VideoCapture) (tracked : list Boxes) (a : Analytics) (d : number)
    (c : string) (n : Z) :
  analyze_video cap tracked = Ret (Some a, d) →
  class_count a !! c = Some n →
  1 ≤ n ∧ ∃ k, confidence_count a !! c = Some k ∧ n ≤ k.
Proof.
  intros E. apply analyze_video_inv in E as ->.
  rewrite session_class_count_lookup, session_confidence_count_lookup.
  destruct (ids_with c (flat_map read_rows tracked)) as [|t l] eqn:El; [done|].
  intros [= <-]. split; [by apply distinct_positive|].
  eexists; split; [done|].
  rewrite <- size_list_to_set_distinct.
  pose proof (size_list_to_set_le (t :: l)). lia.
Qed.

Lemma tracked_counts_positive_witness :
  1 ≤ 2 ∧ ∃ k, confidence_count (session scenario) !! "Car" = Some k ∧ 2 ≤ k.
Proof.
  apply (tracked_counts_positive clip30 scenario (session scenario)
           (PyFloat 0.1) "Car" 2 analyze_video_scenario).
  rewrite session_class_count_lookup. vm_compute. reflexivity.
Defined.

(** ** Order of the frames, and more frames *)

Lemma analyze_video_Some cap tracked a d :
  analyze_video cap tracked = Ret (Some a, d)
  ↔ ∃ w h fps0 n q,
      isOpened cap = true ∧
      int_of_float (CAP_PROP_FRAME_WIDTH cap) = Ret w ∧
      int_of_float (CAP_PROP_FRAME_HEIGHT cap) = Ret h ∧
      int_of_float (CAP_PROP_FPS cap) = Ret fps0 ∧
      int_of_float (CAP_PROP_FRAME_COUNT cap) = Ret n ∧
      int_truediv (Z.of_nat (length tracked)) (int_or fps0 30) = Ret q ∧
      a = session tracked ∧ d = PyFloat q.
Proof.
  unfold analyze_video. split.
  - destruct (isOpened cap); [|done]. cbn [negb].
    destruct (int_of_float (CAP_PROP_FRAME_WIDTH cap)) as [w|]; [|done].
    destruct (int_of_float (CAP_PROP_FRAME_HEIGHT cap)) as [h|]; [|done].
    destruct (int_of_float (CAP_PROP_FPS cap)) as [fps0|]; [|done].
    destruct (int_of_float (CAP_PROP_FRAME_COUNT cap)) as [n|]; [|done].
    cbn [mbind result_bind Py.bind].
    rewrite (video_loop_frames tracked video_analytics 0), Z.add_0_l by done.
    cbn [mbind result_bind Py.bind]. unfold finalize.
    cbn [total_frames with_total].
    destruct (int_truediv _ _) as [q|] eqn:Eq; [|done].
    cbn [mbind result_bind Py.bind fst snd]. intros [= <- <-].
    by exists w, h, fps0, n, q.
  - intros (w & h & fps0 & n & q & -> & -> & -> & -> & -> & Eq & -> & ->).
    cbn [negb mbind result_bind Py.bind].
    rewrite (video_loop_frames tracked video_analytics 0), Z.add_0_l by done.
    cbn [mbind result_bind Py.bind]. unfold finalize.
    cbn [total_frames with_total]. by rewrite Eq.
Qed.






(** The sum of the confidences does depend on the order of the frames. *)
Example confidence_sum_depends_on_frame_order :
  ddget 0%float (confidence_sum (session scenario)) "Car"
  ≠ ddget 0%float (confidence_sum (session (reverse scenario))) "Car".
Proof.
  rewrite !session_confidence_sum. intros H.
  apply (f_equal Prim2SF) in H. vm_compute in H. discriminate H.
Qed.

(** X4. A session never loses what it has counted: when further frames
    follow the frames of a session, every track id recorded under a
    class stays recorded under it, and no [class_count] or
    [confidence_count] entry decreases. *)
Theorem more_frames_never_decrease
    (cap : VideoCapture) (tracked more : list Boxes)
    (a a' : Analytics) (d d' : number) (c : string) :
  analyze_video cap tracked = Ret (Some a, d) →
  analyze_video cap (tracked ++ more) = Ret (Some a', d') →
  ddget ∅ (unique_ids a) c ⊆ ddget ∅ (unique_ids a') c ∧
  ddget 0 (class_count a) c ≤ ddget 0 (class_count a') c ∧
  ddget 0 (confidence_count a) c ≤ ddget 0 (confidence_count a') c.
Proof.
  intros E E'. apply analyze_video_inv in E as ->.
  apply analyze_video_inv in E' as ->.
  rewrite !session_unique_ids, !session_class_count, !session_confidence_count.
  rewrite flat_map_app. unfold ids_with. rewrite omap_app.
  fold (ids_with c (flat_map read_rows tracked)).
  fold (ids_with c (flat_map read_rows more)).
  set (l := ids_with c (flat_map read_rows tracked)).
  set (l' := ids_with c (flat_map read_rows more)).
  split; [set_solver|]. split; [|rewrite length_app; lia].
  rewrite <- !size_list_to_set_distinct.
  apply inj_le, subseteq_size. set_solver.
Qed.

Lemma more_frames_never_decrease_witness :
  ddget ∅ (unique_ids (session (take 1 scenario))) "Car"
  ⊆ ddget ∅ (unique_ids (session scenario)) "Car" ∧
  ddget 0 (class_count (session (take 1 scenario))) "Car"
  ≤ ddget 0 (class_count (session scenario)) "Car" ∧
  ddget 0 (confidence_count (session (take 1 scenario))) "Car"
  ≤ ddget 0 (confidence_count (session scenario)) "Car".
Proof.
  apply (more_frames_never_decrease clip30 (take 1 scenario) (drop 1 scenario)
           _ _ (PyFloat (1 / 30)) (PyFloat 0.1)).
  - vm_compute; reflexivity.
  - exact analyze_video_scenario.
Defined.

(** ** What [analyze_video] never raises *)

(** X5. The division and the dictionary accesses of [analyze_video]
    never fail: whatever the capture reports and whatever the frames
    hold, the function raises neither [ZeroDivisionError] (a frame rate
    of 0 is replaced by 30 before line 77 divides by it) nor [KeyError]
    (the keys it reads are those of lines 34-40). *)
Theorem analyze_video_never_divides_by_zero
    (cap : VideoCapture) (tracked : list Boxes) :
  analyze_video cap tracked ≠ Raise ZeroDivisionError ∧
  analyze_video cap tracked ≠ Raise KeyError.
Proof.
  assert (H : ∀ e, analyze_video cap tracked = Raise e →
                   e = ValueError ∨ e = OverflowError).
  { intros e. unfold analyze_video. destruct (isOpened cap); [|done]. cbn [negb].
    unfold int_of_float.
    destruct (is_nan (CAP_PROP_FRAME_WIDTH cap)); [intros [= <-]; by left|].
    destruct (is_infinity (CAP_PROP_FRAME_WIDTH cap)); [intros [= <-]; by right|].
    destruct (is_nan (CAP_PROP_FRAME_HEIGHT cap)); [intros [= <-]; by left|].
    destruct (is_infinity (CAP_PROP_FRAME_HEIGHT cap)); [intros [= <-]; by right|].
    destruct (is_nan (CAP_PROP_FPS cap)); [intros [= <-]; by left|].
    destruct (is_infinity (CAP_PROP_FPS cap)); [intros [= <-]; by right|].
    destruct (is_nan (CAP_PROP_FRAME_COUNT cap)); [intros [= <-]; by left|].
    destruct (is_infinity (CAP_PROP_FRAME_COUNT cap)); [intros [= <-]; by right|].
    cbn [mbind result_bind Py.bind].
    rewrite (video_loop_frames tracked video_analytics 0), Z.add_0_l by done.
    cbn [mbind result_bind Py.bind]. unfold finalize.
    cbn [total_frames with_total].
    set (fps0 := trunc_SF (Prim2SF (CAP_PROP_FPS cap))).
    destruct (int_truediv_nonzero (Z.of_nat (length tracked)) (int_or fps0 30)
                (int_or_nonzero fps0)) as [q ->].
    done. }
  split; intros E; by destruct (H _ E).
Qed.

(** ** Progress reporting *)

Lemma float_min_one x : (1 <? float_min x 1)%float = false.
Proof.
  unfold float_min. destruct (1 <? x)%float eqn:E; [reflexivity|exact E].
Qed.

Lemma progress_loop_spec progress_bar frame_total tracked : ∀ frame_count,
  ∃ ps,
    progress_loop progress_bar frame_total tracked frame_count = Ret ps ∧
    Forall (fun p => (1 <? p)%float = false) ps ∧
    length ps = if progress_bar && (0 <? frame_total)
                then length tracked else 0%nat.
Proof.
  induction tracked as [|boxes rest IH]; intros frame_count.
  - exists []. repeat split; [constructor|]. by destruct (_ && _).
  - destruct (IH (frame_count + 1)) as (ps & Eps & Hps & Hlen).
    cbn [progress_loop]. rewrite Eps. unfold report_progress.
    destruct (progress_bar && (0 <? frame_total)) eqn:Hbar.
    + apply andb_prop in Hbar as [_ Hpos%Z.ltb_lt].
      destruct (int_truediv_nonzero (frame_count + 1) frame_total) as [q ->];
        [lia|].
      exists (float_min q 1 :: ps). cbn. repeat split.
      * constructor; [apply float_min_one|done].
      * by rewrite Hlen.
    + exists ps. cbn. by repeat split.
Qed.

(** X6. The progress bar of [analyze_video] never receives a value
    above 1.0, also when the decoder delivers more frames than the
    container announced; it receives one value per frame when a bar is
    passed and the announced frame count is positive, and none
    otherwise; and reporting never raises. *)
Theorem progress_never_above_one
    (progress_bar : bool) (frame_total : Z) (tracked : list Boxes) :
  ∃ ps,
    progress_loop progress_bar frame_total tracked 0 = Ret ps ∧
    Forall (fun p => (1 <? p)%float = false) ps ∧
    length ps = if progress_bar && (0 <? frame_total)
                then length tracked else 0%nat.
Proof. apply progress_loop_spec. Qed.

(** Three frames of a clip announced with two: a half, then 1.0 twice. *)
Example progress_of_short_announcement :
  progress_loop true 2 scenario 0 = Ret [0.5; 1; 1]%float.
Proof. vm_compute; reflexivity. Qed.

(** ** The dictionary of a single image *)

Lemma count_boxes_class_count_lookup c boxes : ∀ a,
  class_count (foldl count_box a boxes) !! c
  = match filter (fun box => cls_name box = c) boxes with
    | [] => class_count a !! c
    | l => Some (ddget 0 (class_count a) c + Z.of_nat (length l))
    end.
Proof.
  induction boxes as [|box boxes IH]; intros a; [done|].
  cbn [foldl]. rewrite IH, filter_cons.
  unfold count_box; cbn [class_count].
  destruct (decide (cls_name box = c)) as [->|Hne].
  - rewrite ddget_insert, decide_True, lookup_insert_eq by done.
    destruct (filter _ boxes); f_equal; cbn [length]; lia.
  - rewrite ddget_insert, decide_False, lookup_insert_ne by done. done.
Qed.

Lemma count_boxes_confidence_count_lookup c boxes : ∀ a,
  confidence_count (foldl count_box a boxes) !! c
  = match filter (fun box => cls_name box = c) boxes with
    | [] => confidence_count a !! c
    | l => Some (ddget 0 (confidence_count a) c + Z.of_nat (length l))
    end.
Proof.
  induction boxes as [|box boxes IH]; intros a; [done|].
  cbn [foldl]. rewrite IH, filter_cons.
  unfold count_box; cbn [confidence_count].
  destruct (decide (cls_name box = c)) as [->|Hne].
  - rewrite ddget_insert, decide_True, lookup_insert_eq by done.
    destruct (filter _ boxes); f_equal; cbn [length]; lia.
  - rewrite ddget_insert, decide_False, lookup_insert_ne by done. done.
Qed.

Lemma count_boxes_confidence_sum_dom c boxes : ∀ a,
  is_Some (confidence_sum (foldl count_box a boxes) !! c)
  ↔ is_Some (confidence_sum a !! c)
    ∨ filter (fun box => cls_name box = c) boxes ≠ [].
Proof.
  induction boxes as [|box boxes IH]; intros a.
  - simpl. naive_solver.
  - cbn [foldl]. rewrite IH, filter_cons.
    unfold count_box; cbn [confidence_sum].
    destruct (decide (cls_name box = c)) as [->|Hne].
    + rewrite lookup_insert_eq. split; [by right|intros _; by left].
    + by rewrite lookup_insert_ne.
Qed.

Lemma count_boxes_fixed boxes : ∀ a,
  total_frames (foldl count_box a boxes) = total_frames a ∧
  unique_ids (foldl count_box a boxes) = unique_ids a.
Proof.
  induction boxes as [|box boxes IH]; intros a; [done|].
  cbn [foldl]. by destruct (IH (count_box a box)) as [-> ->].
Qed.

Lemma filter_class_nil_iff c (boxes : list Box) :
  filter (fun box => cls_name box = c) boxes ≠ []
  ↔ ∃ box, box ∈ boxes ∧ cls_name box = c.
Proof.
  split.
  - destruct (filter _ boxes) as [|box l] eqn:E; [done|]. intros _.
    assert (box ∈ filter (fun box => cls_name box = c) boxes) as Hin
      by (rewrite E; left).
    apply list_elem_of_filter in Hin as [? ?]. eauto.
  - intros (box & Hin & Hc) E.
    assert (box ∈ filter (fun box => cls_name box = c) boxes) as Hin'
      by by apply list_elem_of_filter.
    rewrite E in Hin'. by apply not_elem_of_nil in Hin'.
Qed.

Lemma image_dictionary_shape_aux (boxes : Boxes) :
  ∃ a,
    analyze_image (Some boxes) = (Some a, PyInt 0) ∧
    ∀ c, c ∈ dom (class_count a)
         ↔ ∃ box, box ∈ rows boxes ∧ cls_name box = c.
Proof.
  eexists. split; [reflexivity|]. intros c.
  rewrite elem_of_dom, count_boxes_class_count_lookup, <- filter_class_nil_iff.
  unfold image_analytics; cbn [class_count]. rewrite ddget_empty, lookup_empty.
  destruct (filter _ (rows boxes)); [split; [by intros [? ?]|done]|].
  split; [done|eauto].
Qed.

(** X7. The dictionary [analyze_image] returns for a decoded image has
    no ["total_frames"] entry and an empty [unique_ids]; its
    [class_count] and [confidence_count] are the same map, with the keys
    of [confidence_sum]; a class is a key exactly when the image holds a
    box of that class, and every count is at least 1. *)
Theorem image_dictionary_shape (boxes : Boxes) :
  ∃ a,
    analyze_image (Some boxes) = (Some a, PyInt 0) ∧
    total_frames a = None ∧
    unique_ids a = ∅ ∧
    class_count a = confidence_count a ∧
    dom (confidence_sum a) = dom (class_count a) ∧
    (∀ c, c ∈ dom (class_count a)
          ↔ ∃ box, box ∈ rows boxes ∧ cls_name box = c) ∧
    (∀ c n, class_count a !! c = Some n → 1 ≤ n).
Proof.
  eexists. split; [reflexivity|].
  destruct (count_boxes_fixed (rows boxes) image_analytics) as [-> ->].
  split; [done|]. split; [done|].
  assert (Hcc : ∀ c,
    class_count (foldl count_box image_analytics (rows boxes)) !! c
    = match filter (fun box => cls_name box = c) (rows boxes) with
      | [] => None
      | l => Some (Z.of_nat (length l))
      end).
  { intros c. rewrite count_boxes_class_count_lookup.
    unfold image_analytics; cbn [class_count].
    rewrite ddget_empty, lookup_empty. by destruct (filter _ _). }
  split; [|split; [|split]].
  - apply map_eq; intros c. rewrite Hcc, count_boxes_confidence_count_lookup.
    unfold image_analytics; cbn [confidence_count].
    rewrite ddget_empty, lookup_empty. by destruct (filter _ _).
  - apply set_eq; intros c. rewrite !elem_of_dom, Hcc.
    rewrite count_boxes_confidence_sum_dom.
    unfold image_analytics; cbn [confidence_sum]. rewrite lookup_empty.
    destruct (filter _ (rows boxes)) as [|b l] eqn:E.
    + split; [intros [[? ?]|?]; done|by intros [? ?]].
    + split; [eauto|by right].
  - intros c. rewrite elem_of_dom, Hcc, <- filter_class_nil_iff.
    destruct (filter _ (rows boxes)); [split; [by intros [? ?]|done]|].
    split; [done|eauto].
  - intros c n. rewrite Hcc.
    destruct (filter _ (rows boxes)); [done|]. intros [= <-].
    cbn [length]. lia.
Qed.

(** ** The metrics of the dashboard *)

Lemma total_fold_insert_None (m : gmap string Z) k v :
  m !! k = None →
  map_fold (fun _ count acc => acc + count) 0 (<[k := v]> m)
  = map_fold (fun _ count acc => acc + count) 0 m + v.
Proof.
  intros Hk. rewrite map_fold_insert_L; [done| |done].
  intros. lia.
Qed.

Lemma total_fold_insert (m : gmap string Z) k v :
  map_fold (fun _ count acc => acc + count) 0 (<[k := v]> m)
  = map_fold (fun _ count acc => acc + count) 0 m - ddget 0 m k + v.
Proof.
  unfold ddget. destruct (m !! k) as [w|] eqn:Hk; simpl.
  - rewrite <- (insert_delete_eq m k v).
    rewrite total_fold_insert_None by apply lookup_delete_eq.
    rewrite <- (insert_id m k w Hk) at 2.
    rewrite <- (insert_delete_eq m k w).
    rewrite total_fold_insert_None by apply lookup_delete_eq. lia.
  - rewrite total_fold_insert_None by done. lia.
Qed.

Lemma total_obj_count_boxes boxes : ∀ a,
  total_obj (foldl count_box a boxes)
  = total_obj a + Z.of_nat (length boxes).
Proof.
  induction boxes as [|box boxes IH]; intros a; [simpl; lia|].
  cbn [foldl length]. rewrite IH. unfold total_obj, count_box; cbn [class_count].
  rewrite total_fold_insert. lia.
Qed.

Lemma size_list_to_set_strings (l : list string) :
  size (list_to_set l : gset string) = length (remove_dups l).
Proof.
  rewrite <- (size_list_to_set (C := gset string) (remove_dups l))
    by apply NoDup_remove_dups.
  f_equal. apply set_eq; intros x.
  by rewrite !elem_of_list_to_set, elem_of_remove_dups.
Qed.

(** X8. For a decoded image the dashboard's "Total Objects" is the
    number of boxes of the image, and its "Unique Classes" is the number
    of distinct class names among them. *)
Theorem image_dashboard_metrics (boxes : Boxes) :
  ∃ a,
    analyze_image (Some boxes) = (Some a, PyInt 0) ∧
    total_obj a = Z.of_nat (length (rows boxes)) ∧
    unique_classes a
    = Z.of_nat (length (remove_dups (cls_name <$> rows boxes))).
Proof.
  destruct (image_dictionary_shape_aux boxes) as (a & E & Hdom).
  exists a. split; [exact E|]. injection E as <-.
  split.
  - rewrite total_obj_count_boxes. unfold total_obj, image_analytics.
    cbn [class_count]. by rewrite map_fold_empty.
  - unfold unique_classes. rewrite <- size_dom, <- size_list_to_set_strings.
    do 2 f_equal. apply set_eq; intros c.
    rewrite Hdom, elem_of_list_to_set, list_elem_of_fmap. naive_solver.
Qed.

Lemma derive_class_count_empty (uids : gmap string (gset Z)) :
  derive_class_count uids ∅ = (fun ids => Z.of_nat (size ids)) <$> uids.
Proof.
  apply map_eq; intros c.
  rewrite derive_class_count_lookup, lookup_fmap, lookup_empty.
  by destruct (uids !! c).
Qed.

Lemma elem_of_tracked_pairs c t boxes :
  (c, t) ∈ tracked_pairs boxes
  ↔ ∃ box, box ∈ boxes ∧ cls_name box = c ∧ id box = Some t.
Proof.
  unfold tracked_pairs. rewrite list_elem_of_omap. split.
  - intros (box & Hin & Hbox). exists box.
    destruct (id box); [|done]. by injection Hbox as <- <-.
  - intros (box & Hin & <- & Hid). exists box. by rewrite Hid.
Qed.

Lemma total_sizes_tracked boxes :
  map_fold (fun _ count acc => acc + count) 0
    ((fun ids => Z.of_nat (size ids))
       <$> unique_ids (foldl track_box video_analytics boxes))
  = Z.of_nat (size (list_to_set (tracked_pairs boxes) : gset (string * Z))).
Proof.
  induction boxes as [|[cn [t|] p] boxes IH] using rev_ind.
  - unfold video_analytics; cbn. by rewrite fmap_empty, map_fold_empty.
  - rewrite foldl_snoc. unfold tracked_pairs. rewrite omap_app.
    fold (tracked_pairs boxes). csimpl.
    set (a := foldl track_box video_analytics boxes) in *.
    unfold track_box; cbn [id cls_name conf unique_ids].
    rewrite fmap_insert, total_fold_insert, IH.
    assert (Hold : ddget 0 ((fun ids => Z.of_nat (size ids)) <$> unique_ids a) cn
                   = Z.of_nat (size (ddget ∅ (unique_ids a) cn))).
    { unfold ddget. rewrite lookup_fmap.
      destruct (unique_ids a !! cn); [done|]. cbn [fmap option_fmap option_map default].
      by rewrite size_empty. }
    rewrite Hold, list_to_set_app_L, list_to_set_singleton.
    destruct (decide (t ∈ ddget ∅ (unique_ids a) cn)) as [Hin|Hin].
    + replace ({[t]} ∪ ddget ∅ (unique_ids a) cn)
        with (ddget ∅ (unique_ids a) cn) by set_solver.
      assert ((cn, t) ∈ tracked_pairs boxes) as Hp.
      { apply elem_of_tracked_pairs. by apply elem_of_unique_ids. }
      replace (list_to_set (tracked_pairs boxes) ∪ {[(cn, t)]})
        with (list_to_set (tracked_pairs boxes) : gset (string * Z))
        by set_solver.
      lia.
    + rewrite size_union, size_singleton by set_solver.
      assert ((cn, t) ∉ tracked_pairs boxes) as Hp.
      { intros Hp. apply Hin. apply elem_of_unique_ids.
        by apply elem_of_tracked_pairs. }
      rewrite size_union, size_singleton by set_solver. lia.
  - rewrite foldl_snoc. unfold tracked_pairs. rewrite omap_app.
    fold (tracked_pairs boxes). csimpl. rewrite app_nil_r.
    by rewrite track_box_undefined.
Qed.

Lemma size_list_to_set_pairs (l : list (string * Z)) :
  size (list_to_set l : gset (string * Z)) = length (remove_dups l).
Proof.
  rewrite <- (size_list_to_set (C := gset (string * Z)) (remove_dups l))
    by apply NoDup_remove_dups.
  f_equal. apply set_eq; intros x.
  by rewrite !elem_of_list_to_set, elem_of_remove_dups.
Qed.

(** X9. For a video the dashboard's "Total Objects" is the number of
    distinct pairs of a class and a track id among the boxes read (a
    track seen under two classes counts twice), and its "Unique Classes"
    is the number of distinct classes among the boxes read that carry a
    track id. The boxes read are those of the frames whose boxes carry
    identities. *)
Theorem video_dashboard_metrics
    (cap : VideoCapture) (tracked : list Boxes) (a : Analytics) (d : number) :
  analyze_video cap tracked = Ret (Some a, d) →
  total_obj a
  = Z.of_nat (length (remove_dups (tracked_pairs (flat_map read_rows tracked)))) ∧
  unique_classes a
  = Z.of_nat (length (remove_dups (tracked_classes (flat_map read_rows tracked)))).
Proof.
  intros E. apply analyze_video_inv in E as ->. split.
  - unfold total_obj, session; cbn [class_count].
    rewrite track_frames_read_rows, track_boxes_class_count.
    unfold video_analytics at 2; cbn [class_count].
    by rewrite derive_class_count_empty, total_sizes_tracked,
      size_list_to_set_pairs.
  - unfold unique_classes.
    rewrite <- size_dom, <- size_list_to_set_strings.
    do 2 f_equal. apply set_eq; intros c.
    rewrite elem_of_dom, session_class_count_lookup, elem_of_list_to_set.
    rewrite <- ids_with_nil_iff.
    destruct (ids_with _ _); [split; [by intros [? ?]|done]|].
    split; [done|eauto].
Qed.

Lemma video_dashboard_metrics_witness :
  total_obj (session reclassified)
  = Z.of_nat (length (remove_dups
                        (tracked_pairs (flat_map read_rows reclassified)))) ∧
  unique_classes (session reclassified)
  = Z.of_nat (length (remove_dups
                        (tracked_classes (flat_map read_rows reclassified)))).
Proof.
  apply (video_dashboard_metrics clip30 reclassified _ (PyFloat (2 / 30))).
  vm_compute; reflexivity.
Defined.

(** ** The duration shown *)

Lemma int_truediv_zero b q :
  int_truediv 0 b = Ret q → (q =? 0)%float = true.
Proof.
  unfold int_truediv. destruct b as [|p|p]; cbn; [done|..];
    by intros [= <-].
Qed.

(** X10. The dashboard shows no duration (its text is "N/A") for every
    decoded image, and for a video of which no frame was read. *)
Theorem no_duration_to_show :
  (∀ boxes, duration_metric (snd (analyze_image (Some boxes))) = None) ∧
  (∀ cap a d,
     analyze_video cap [] = Ret (Some a, d) → duration_metric d = None).
Proof.
  split; [done|].
  intros cap a d E.
  apply analyze_video_Some in E
    as (w & h & fps0 & n & q & _ & _ & _ & _ & _ & Eq & _ & ->).
  apply int_truediv_zero in Eq.
  unfold duration_metric, number_truthy. by rewrite Eq.
Qed.

(** ** The bar chart *)

Lemma map_to_list_columns (m : gmap string Z) i c n :
  (map_to_list m).*1 !! i = Some c →
  (map_to_list m).*2 !! i = Some n →
  m !! c = Some n.
Proof.
  rewrite !list_lookup_fmap.
  destruct (map_to_list m !! i) as [[c' n']|] eqn:E; [|done].
  cbn. intros [= <-] [= <-].
  apply elem_of_map_to_list. by eapply list_elem_of_lookup_2.
Qed.

(** X11. [generate_class_graph] draws nothing exactly when the
    dictionary is empty; when it draws, classes and heights have the
    same length, one bar per key, and the bar at each position has the
    height [class_count] holds for its class. For the [class_count] of
    a decoded image, nothing is drawn exactly when the image has no
    box. *)
Theorem class_graph_bars (cc : gmap string Z) (boxes : Boxes) :
  (generate_class_graph cc = None ↔ cc = ∅) ∧
  (∀ classes counts,
     generate_class_graph cc = Some (classes, counts) →
     length classes = size cc ∧
     length counts = size cc ∧
     ∀ i c n, classes !! i = Some c → counts !! i = Some n →
              cc !! c = Some n) ∧
  (∀ a d, analyze_image (Some boxes) = (Some a, d) →
          (generate_class_graph (class_count a) = None ↔ rows boxes = [])).
Proof.
  unfold generate_class_graph. split; [|split].
  - by destruct (decide (cc = ∅)).
  - intros classes counts. destruct (decide (cc = ∅)); [done|].
    intros [= <- <-]. rewrite !length_fmap, length_map_to_list.
    repeat split. apply map_to_list_columns.
  - intros a d E.
    destruct (image_dictionary_shape_aux boxes) as (a' & E' & Hdom).
    rewrite E' in E. injection E as <- <-.
    destruct (decide (class_count a' = ∅)) as [Hempty|Hne].
    + split; [intros _|done].
      destruct (rows boxes) as [|box l] eqn:Hrows; [done|].
      assert (cls_name box ∈ dom (class_count a')) as Hin.
      { apply Hdom. exists box. split; [left|done]. }
      rewrite Hempty, dom_empty_L in Hin. set_solver.
    + split; [done|]. intros Hrows. exfalso. apply Hne.
      apply map_empty; intros c. apply not_elem_of_dom. rewrite Hdom.
      intros (box & Hin & _). rewrite Hrows in Hin.
      by apply not_elem_of_nil in Hin.
Qed.

(** ** The statistics table *)

Lemma mapM_Ret {A B : Type} (f : A → result B) (g : A → B) (l : list A) :
  (∀ x, f x = Ret (g x)) → mapM f l = Ret (g <$> l).
Proof.
  intros H. induction l as [|x l IH]; [done|].
  cbn [mapM]. by rewrite H, IH.
Qed.

Lemma table_rows_statistics a :
  create_statistics_section a
  = Ret ((fun item : string * Z =>
            (item.1, item.2,
             avg_confidence (ddget 0%float (confidence_sum a) item.1)
               (ddget 0 (confidence_count a) item.1)))
           <$> map_to_list (class_count a)).
Proof.
  unfold create_statistics_section, table_rows.
  apply mapM_Ret. intros [c n]; cbn [fst snd].
  by rewrite statistics_avg_conf_rule.
Qed.

(** X12. Whatever the dictionary, [create_statistics_section] builds
    its table without raising: one row per key of [class_count], with
    that class and its count in the first two cells; a class without
    confidence entries gets the average 0.0. *)
Theorem statistics_table_rows (a : Analytics) :
  ∃ table,
    create_statistics_section a = Ret table ∧
    length table = size (class_count a) ∧
    (fun row : string * Z * float => row.1) <$> table
    = map_to_list (class_count a) ∧
    ∀ c n avg, (c, n, avg) ∈ table →
               confidence_count a !! c = None → avg = 0%float.
Proof.
  eexists. split; [apply table_rows_statistics|].
  split; [by rewrite length_fmap, length_map_to_list|]. split.
  - rewrite <- list_fmap_compose.
    rewrite <- (list_fmap_id (map_to_list (class_count a))) at 2.
    apply list_fmap_ext. by intros _ [c n] _.
  - intros c n avg Hin Hnone.
    apply list_elem_of_fmap in Hin as ([c' n'] & [= -> -> ->] & _).
    cbn [fst snd]. unfold ddget at 2. by rewrite Hnone.
Qed.

Lemma produced_counts a c n :
  produced a →
  class_count a !! c = Some n →
  1 ≤ n ∧ ∃ k, confidence_count a !! c = Some k ∧ n ≤ k.
Proof.
  intros [(cap & tracked & d & E)|(frame & d & E)].
  - apply analyze_video_inv in E as ->.
    rewrite session_class_count_lookup, session_confidence_count_lookup.
    destruct (ids_with c (flat_map read_rows tracked)) as [|t l]; [done|].
    intros [= <-]. split; [by apply distinct_positive|].
    eexists; split; [done|].
    rewrite <- size_list_to_set_distinct.
    pose proof (size_list_to_set_le (t :: l)). lia.
  - destruct frame as [boxes|]; [|done]. injection E as <- _.
    rewrite count_boxes_class_count_lookup, count_boxes_confidence_count_lookup.
    unfold image_analytics; cbn [class_count confidence_count].
    rewrite !ddget_empty, !lookup_empty.
    destruct (filter _ (rows boxes)); [done|]. intros [= <-].
    split; [cbn [length]; lia|]. eexists; split; [done|cbn [length]; lia].
Qed.

(** X13. In the table built from a dictionary that [analyze_video] or
    [analyze_image] returned, no row falls back on 0.0: every class of
    [class_count] has a count of at least 1 and a positive
    [confidence_count], and both report builders give it the quotient
    [confidence_sum / confidence_count]. *)
Theorem produced_rows_are_averages (a : Analytics) (c : string) (n : Z) :
  produced a →
  class_count a !! c = Some n →
  1 ≤ n ∧
  0 < ddget 0 (confidence_count a) c ∧
  statistics_avg_conf a c
  = Ret (PrimFloat.div (ddget 0%float (confidence_sum a) c)
           (float_of_int (ddget 0 (confidence_count a) c))) ∧
  summary_avg_conf a c = statistics_avg_conf a c.
Proof.
  intros Hprod Hc.
  destruct (produced_counts a c n Hprod Hc) as (Hn & k & Hk & Hnk).
  assert (Hpos : 0 < ddget 0 (confidence_count a) c)
    by (unfold ddget; rewrite Hk; cbn; lia).
  split; [done|]. split; [done|].
  rewrite summary_avg_conf_rule, statistics_avg_conf_rule.
  unfold avg_confidence. destruct (Z.ltb_spec 0 (ddget 0 (confidence_count a) c));
    [done|lia].
Qed.

Lemma produced_rows_are_averages_witness :
  1 ≤ 2 ∧
  0 < ddget 0 (confidence_count (session scenario)) "Car" ∧
  statistics_avg_conf (session scenario) "Car"
  = Ret (PrimFloat.div (ddget 0%float (confidence_sum (session scenario)) "Car")
           (float_of_int (ddget 0 (confidence_count (session scenario)) "Car"))) ∧
  summary_avg_conf (session scenario) "Car"
  = statistics_avg_conf (session scenario) "Car".
Proof.
  apply (produced_rows_are_averages (session scenario) "Car" 2).
  - left. exists clip30, scenario, (PyFloat 0.1). exact analyze_video_scenario.
  - rewrite session_class_count_lookup. vm_compute. reflexivity.
Defined.

(** ** The paragraphs of the summary *)

Lemma lstrip_nil_iff s : lstrip s = [] ↔ forallb isspace s = true.
Proof.
  induction s as [|c s IH]; [done|]. cbn [lstrip forallb].
  destruct (isspace c); [exact IH|done].
Qed.

Lemma lstrip_keeps_nonspace s :
  forallb isspace s = false → forallb isspace (lstrip s) = false.
Proof.
  induction s as [|c s IH]; [done|]. cbn [lstrip forallb].
  destruct (isspace c) eqn:Ec; [exact IH|].
  intros _. cbn [forallb]. by rewrite Ec.
Qed.

Lemma forallb_reverse (f : N → bool) s :
  forallb f (reverse s) = forallb f s.
Proof.
  induction s as [|c s IH]; [done|].
  rewrite reverse_cons, forallb_app, IH. cbn [forallb].
  rewrite andb_true_r. apply andb_comm.
Qed.

Lemma strip_nil_iff s : strip s = [] ↔ nonblank s = false.
Proof.
  unfold strip, nonblank. rewrite negb_false_iff.
  destruct (forallb isspace s) eqn:E.
  - apply lstrip_nil_iff in E as ->. by cbn.
  - split; [|done]. intros H. exfalso.
    apply (f_equal reverse) in H. rewrite reverse_involutive in H.
    cbn in H. apply lstrip_nil_iff in H.
    rewrite forallb_reverse in H.
    apply lstrip_keeps_nonspace in E. congruence.
Qed.

Lemma append_paragraphs_filter style gap lines : ∀ story,
  append_paragraphs style gap story lines
  = story ++ flat_map (fun para => [Paragraph para style; Spacer 1 gap])
               (filter (fun line => nonblank line = true) lines).
Proof.
  unfold append_paragraphs.
  induction lines as [|para lines IH]; intros story.
  - by rewrite app_nil_r.
  - cbn [foldl]. rewrite IH, filter_cons.
    destruct (strip para) as [|c r] eqn:E.
    + apply strip_nil_iff in E. rewrite decide_False by congruence. done.
    + assert (nonblank para = true) as Hnb.
      { destruct (nonblank para) eqn:Hnb; [done|].
        apply strip_nil_iff in Hnb. congruence. }
      rewrite decide_True by done. cbn [flat_map].
      by rewrite <- !(assoc app).
Qed.

Lemma paragraphs_of_app style story1 story2 :
  paragraphs_of style (story1 ++ story2)
  = paragraphs_of style story1 ++ paragraphs_of style story2.
Proof. unfold paragraphs_of. apply omap_app. Qed.

Lemma paragraphs_of_lines style gap lines :
  paragraphs_of style
    (flat_map (fun para => [Paragraph para style; Spacer 1 gap]) lines)
  = lines.
Proof.
  unfold paragraphs_of. induction lines as [|para lines IH]; [done|].
  csimpl. rewrite decide_True by done. by rewrite IH.
Qed.

Lemma split_lines_nonempty s : split_lines s ≠ [].
Proof.
  destruct s as [|c s]; [done|]. cbn [split_lines].
  destruct (c =? 10)%N; [done|]. by destruct (split_lines s).
Qed.

Lemma visible_concat_split s :
  filter (fun c => isspace c = false) (concat (split_lines s))
  = filter (fun c => isspace c = false) s.
Proof.
  induction s as [|c s IH]; [done|]. cbn [split_lines].
  destruct (N.eqb_spec c 10) as [->|Hc].
  - cbn [concat app]. rewrite IH, filter_cons. by rewrite decide_False.
  - pose proof (split_lines_nonempty s) as Hne.
    destruct (split_lines s) as [|line lines]; [done|].
    cbn [concat app] in *. by rewrite !filter_cons, IH.
Qed.

Lemma visible_blank_line line :
  nonblank line ≠ true → filter (fun c => isspace c = false) line = [].
Proof.
  unfold nonblank. intros H.
  assert (forallb isspace line = true) as Hall
    by (destruct (forallb isspace line); [done|by destruct H]).
  clear H. induction line as [|c line IH]; [done|].
  cbn [forallb] in Hall. apply andb_prop in Hall as [Hc Hall].
  rewrite filter_cons, decide_False by congruence. by apply IH.
Qed.

Lemma visible_concat_nonblank lines :
  filter (fun c => isspace c = false)
    (concat (filter (fun line => nonblank line = true) lines))
  = filter (fun c => isspace c = false) (concat lines).
Proof.
  induction lines as [|line lines IH]; [done|].
  rewrite filter_cons. cbn [concat].
  destruct (decide (nonblank line = true)) as [Hnb|Hnb].
  - cbn [concat]. by rewrite !filter_app, IH.
  - rewrite filter_app, IH. by rewrite (visible_blank_line line Hnb).
Qed.

(** X14. Both report builders turn the summary into one paragraph per
    line that holds something else than whitespace, in the order of the
    lines and with the text of the line as it stands; an empty summary
    gets the notice of [create_ai_summary_section], and no paragraph
    from [generate_pdf]. Nothing but whitespace is lost: the characters
    of the paragraphs that are not whitespace are those of the summary,
    in order. *)
Theorem summary_paragraphs (story : list flowable) (ai_summary : list N) :
  paragraphs_of "body" (create_ai_summary_section story ai_summary)
  = paragraphs_of "body" story
    ++ match ai_summary with
       | [] => [text_of "No AI Summary available."]
       | _ => filter (fun line => nonblank line = true) (split_lines ai_summary)
       end ∧
  paragraphs_of "Normal" (generate_pdf_summary story ai_summary)
  = paragraphs_of "Normal" story
    ++ filter (fun line => nonblank line = true) (split_lines ai_summary) ∧
  filter (fun c => isspace c = false)
    (concat (filter (fun line => nonblank line = true) (split_lines ai_summary)))
  = filter (fun c => isspace c = false) ai_summary.
Proof.
  split; [|split].
  - unfold create_ai_summary_section. destruct ai_summary as [|c s].
    + rewrite !paragraphs_of_app. cbn. by rewrite !app_nil_r.
    + rewrite append_paragraphs_filter, !paragraphs_of_app.
      rewrite paragraphs_of_lines. cbn [paragraphs_of omap list_omap].
      rewrite decide_False by done. cbn. by rewrite !app_nil_r.
  - unfold generate_pdf_summary.
    rewrite append_paragraphs_filter, !paragraphs_of_app.
    rewrite paragraphs_of_lines. cbn [paragraphs_of omap list_omap].
    rewrite decide_False by done. cbn. by rewrite !app_nil_r.
  - by rewrite visible_concat_nonblank, visible_concat_split.
Qed.

Lemma split_lines_blank s :
  forallb isspace s = true →
  filter (fun line => nonblank line = true) (split_lines s) = [].
Proof.
  intros Hs.
  assert (Forall (fun line => forallb isspace line = true) (split_lines s)) as H.
  { induction s as [|c s IH]; [by repeat constructor|].
    cbn [forallb] in Hs. apply andb_prop in Hs as [Hc Hs].
    specialize (IH Hs). cbn [split_lines].
    destruct (c =? 10)%N; [by constructor|].
    destruct IH as [|line lines Hline Hlines];
      [constructor; [cbn [forallb]; by rewrite Hc|constructor]|].
    constructor; [|done]. cbn [forallb]. by rewrite Hc, Hline. }
  induction H as [|line lines Hline _ IH]; [done|].
  rewrite filter_cons, decide_False; [done|].
  unfold nonblank. by rewrite Hline.
Qed.

(** X15. A summary that is not empty but holds whitespace only (blank
    lines, say) leaves the section of [create_ai_summary_section]
    without any text: the builder appends the heading, the divider and
    the two spacers, neither a paragraph nor the notice written for an
    empty summary. *)
Theorem blank_summary_leaves_section_empty
    (story : list flowable) (ai_summary : list N) :
  ai_summary ≠ [] →
  forallb isspace ai_summary = true →
  create_ai_summary_section story ai_summary
  = story ++ [ Paragraph (text_of "2. Executive Summary (AI Analysis)") "heading";
               Divider 5; Spacer 1 10; Spacer 1 20 ].
Proof.
  intros Hne Hblank. unfold create_ai_summary_section.
  destruct ai_summary as [|c s]; [done|].
  rewrite append_paragraphs_filter, split_lines_blank by done.
  cbn [flat_map]. rewrite app_nil_r. by rewrite <- !(assoc app).
Qed.

Lemma blank_summary_leaves_section_empty_witness :
  create_ai_summary_section [PageBreak] [10; 32; 10]%N
  = [PageBreak]
    ++ [ Paragraph (text_of "2. Executive Summary (AI Analysis)") "heading";
         Divider 5; Spacer 1 10; Spacer 1 20 ].
Proof.
  apply (blank_summary_leaves_section_empty [PageBreak] [10; 32; 10]%N).
  - discriminate.
  - reflexivity.
Defined.
